(** * UNet training orchestration: metrics engine, checkpoint loading, validation
      and the epoch loop of [unet/train.py], embedded in Rocq.

    The Python source is embedded shallowly:
    - a Python [dict] is an insertion-ordered association list (iteration
      order and "last assignment wins" matter in [UNetMetrics.compute]);
    - exceptions are values of [Py.exn]; a call yields an [Py.outcome];
    - methods that mutate [self] are state-passing functions in the monad
      [Py.M];
    - name resolution is explicit: a bare name inside a method is looked up
      in the module namespace ([Globals]), an attribute in the object;
    - [torch], [torchmetrics] and the [UNET] network are external: their
      operations are the fields of the class [TorchEnv], except [one_hot],
      [permute] and [argmax], which are written out on nested lists.
    Floats are rationals ([Q]); printing is not modelled.  The methods are
    modelled on classes that exist; the evaluation of annotations when the
    classes are created (the name [Tensor] in the signature of [update] is
    bound by no import) is part of the script, [Script.main]. *)

From Stdlib Require Import String Ascii DecimalString.
From Stdlib Require DecimalNat DecimalFacts.
From Stdlib Require Import ZArith QArith List Bool Lia Arith.
Import ListNotations.
Open Scope string_scope.
Open Scope list_scope.
Open Scope Z_scope.

(* ------------------------------------------------------------------ *)
(** ** Python values, exceptions, dictionaries *)

Module Py.

Inductive exn : Type :=
| ValueError (msg : string)
| AttributeError (attr : string)
| NameError (name : string)
| UnboundLocalError (name : string)
| KeyError (key : string)
| TypeError (msg : string)
| IndexError (msg : string)
| RuntimeError (msg : string)
| ZeroDivisionError
| StopIteration.

Inductive outcome (A : Type) : Type :=
| Normal (a : A)
| Raise (e : exn).
Arguments Normal {A} a.
Arguments Raise {A} e.

Definition is_normal {A} (r : outcome A) : bool :=
  match r with Normal _ => true | Raise _ => false end.

(** [dict]: keys in insertion order. *)
Definition dict (V : Type) : Type := list (string * V).

Fixpoint getitem {V} (k : string) (d : dict V) : option V :=
  match d with
  | [] => None
  | (k', v) :: d' => if String.eqb k k' then Some v else getitem k d'
  end.

(** [d[k] = v]: an existing key keeps its position, a new key goes last. *)
Fixpoint setitem {V} (k : string) (v : V) (d : dict V) : dict V :=
  match d with
  | [] => [(k, v)]
  | (k', v') :: d' =>
      if String.eqb k k' then (k', v) :: d' else (k', v') :: setitem k v d'
  end.

(** [d[k]] as an expression. *)
Definition subscript {V} (d : dict V) (k : string) : outcome V :=
  match getitem k d with
  | Some v => Normal v
  | None => Raise (KeyError k)
  end.

(** A bare name looked up in a namespace. *)
Definition lookup_name {V} (name : string) (binding : option V) : outcome V :=
  match binding with
  | Some v => Normal v
  | None => Raise (NameError name)
  end.

Definition startswith (s p : string) : bool := String.prefix p s.

Definition endswith (s suffix : string) : bool :=
  let n := String.length s in
  let m := String.length suffix in
  (m <=? n)%nat && String.eqb (String.substring (n - m) m s) suffix.

(** State and exception monad: the state survives a raised exception, as the
    mutations of a Python object do. *)
Definition M (S A : Type) : Type := S -> outcome A * S.

Definition ret {S A} (a : A) : M S A := fun s => (Normal a, s).
Definition raise {S A} (e : exn) : M S A := fun s => (Raise e, s).
Definition bind {S A B} (m : M S A) (k : A -> M S B) : M S B :=
  fun s =>
    match m s with
    | (Normal a, s') => k a s'
    | (Raise e, s') => (Raise e, s')
    end.
Definition lift {S A} (r : outcome A) : M S A := fun s => (r, s).
Definition gets {S A} (f : S -> A) : M S A := fun s => (Normal (f s), s).
Definition modify {S} (f : S -> S) : M S unit := fun s => (Normal tt, f s).

(** A statement either falls through to the next one or executes [return]. *)
Inductive flow (R : Type) : Type :=
| Fallthrough
| Returned (r : R).
Arguments Fallthrough {R}.
Arguments Returned {R} r.

End Py.
Import Py.

Declare Scope py_scope.
Delimit Scope py_scope with py.
Notation "x <- m ;; k" := (bind m (fun x => k))
  (at level 61, m at next level, right associativity) : py_scope.
Notation "m ;;; k" := (bind m (fun _ => k))
  (at level 61, right associativity) : py_scope.
Notation "' pat <- m ;; k" :=
  (bind m (fun x => match x with pat => k end))
  (at level 61, pat pattern, m at next level, right associativity) : py_scope.
Open Scope py_scope.

(* ------------------------------------------------------------------ *)
(** ** Tensors as nested lists and the three torch operations of the
       one-hot / arg-max round trip *)

Module Torch.

(** A (B, H, W) tensor and a 4-d tensor, outermost dimension first. *)
Definition tensor3 (A : Type) : Type := list (list (list A)).
Definition tensor4 (A : Type) : Type := list (tensor3 A).

Definition has_shape2 {A} (H W : nat) (t : list (list A)) : Prop :=
  length t = H /\ Forall (fun row => length row = W) t.
Definition has_shape3 {A} (B H W : nat) (t : tensor3 A) : Prop :=
  length t = B /\ Forall (has_shape2 H W) t.
Definition has_shape4 {A} (B C H W : nat) (t : tensor4 A) : Prop :=
  length t = B /\ Forall (has_shape3 C H W) t.

(** The elements, in row-major order. *)
Definition entries3 {A} (t : tensor3 A) : list A := concat (concat t).

Definition map3 {A B} (f : A -> B) (t : tensor3 A) : tensor3 B :=
  map (map (map f)) t.
Definition map4 {A B} (f : A -> B) (t : tensor4 A) : tensor4 B :=
  map (map3 f) t.

(** [Tensor.long()]: labels are integers already; widening keeps the value. *)
Definition long (t : tensor3 Z) : tensor3 Z := t.

(** [Tensor.float()]. *)
Definition float (t : tensor4 Z) : tensor4 Q := map4 inject_Z t.

(** [Tensor.int()]: narrowing to 32 bits, two's complement. *)
Definition int32 (z : Z) : Z := (z + 2 ^ 31) mod 2 ^ 32 - 2 ^ 31.
Definition int (t : tensor3 Z) : tensor3 Z := map3 int32 t.

(** The indicator vector of class [v] among [C] classes. *)
Definition indicator (C : nat) (v : Z) : list Z :=
  map (fun c => if Z.of_nat c =? v then 1 else 0) (seq 0 C).

(** Entry [c] of that vector, as a float. *)
Definition bit (x : Z) (c : nat) : Q :=
  inject_Z (if Z.of_nat c =? x then 1 else 0).

Definition max_entry (l : list Z) : Z := fold_right Z.max 0 l.

(** [torch.nn.functional.one_hot(label, num_classes)]: channel-last result,
    shape (B, H, W, C).  An empty tensor needs a positive class count; a
    non-empty one needs entries in [0, num_classes), and [-1] asks for the
    count to be inferred as the largest entry plus one. *)
Definition one_hot (label : tensor3 Z) (num_classes : Z)
  : outcome (nat * tensor4 Z) :=
  let vals := entries3 label in
  match vals with
  | [] =>
      if num_classes <=? 0
      then Raise (RuntimeError
                    "Can not infer total number of classes from empty tensor.")
      else Normal (Z.to_nat num_classes,
                   map3 (indicator (Z.to_nat num_classes)) label)
  | _ :: _ =>
      if existsb (fun v => v <? 0) vals
      then Raise (RuntimeError "Class values must be non-negative.")
      else
        let C := if num_classes =? -1 then max_entry vals + 1
                 else num_classes in
        if C <=? max_entry vals
        then Raise (RuntimeError
                      "Class values must be smaller than num_classes.")
        else Normal (Z.to_nat C, map3 (indicator (Z.to_nat C)) label)
  end.

(** [t.permute(0,3,1,2)] on a channel-last tensor whose last dimension has
    size [C]: out[b][c][h][w] = t[b][h][w][c].  The size of the last
    dimension is passed along because a nested list without any pixel does
    not record it. *)
Definition permute_0312 {A} (d : A) (C : nat) (t : tensor4 A) : tensor4 A :=
  map (fun img =>
         map (fun c => map (map (fun px => nth c px d)) img) (seq 0 C))
      t.

(** Index of the first maximal element (ties go to the lowest index, as
    [torch.argmax] documents). *)
Fixpoint argmax_from (best : Q) (besti : Z) (i : Z) (l : list Q) : Z :=
  match l with
  | [] => besti
  | x :: l' =>
      if Qle_bool x best then argmax_from best besti (i + 1) l'
      else argmax_from x i (i + 1) l'
  end.

Definition argmax_list (l : list Q) : Z :=
  match l with
  | [] => 0
  | x :: l' => argmax_from x 0 1 l'
  end.

Fixpoint mapi_from {A B} (f : nat -> A -> B) (i : nat) (l : list A) : list B :=
  match l with
  | [] => []
  | x :: l' => f i x :: mapi_from f (S i) l'
  end.
Definition mapi {A B} (f : nat -> A -> B) (l : list A) : list B :=
  mapi_from f 0%nat l.

(** [torch.argmax(t, dim=1)] on one batch element (C, H, W):
    out[h][w] = argmax over c of planes[c][h][w]. *)
Definition argmax_planes (planes : tensor3 Q) : outcome (list (list Z)) :=
  match planes with
  | [] => Raise (IndexError
                   "argmax(): Expected reduction dim 1 to have non-zero size.")
  | p0 :: _ =>
      Normal (mapi (fun h row =>
                      mapi (fun w _ =>
                              argmax_list
                                (map (fun pl => nth w (nth h pl []) 0%Q) planes))
                           row)
                   p0)
  end.

Fixpoint sequence {A} (l : list (outcome A)) : outcome (list A) :=
  match l with
  | [] => Normal []
  | Normal a :: l' =>
      match sequence l' with
      | Normal r => Normal (a :: r)
      | Raise e => Raise e
      end
  | Raise e :: _ => Raise e
  end.

Definition argmax_dim1 (t : tensor4 Q) : outcome (tensor3 Z) :=
  sequence (map argmax_planes t).

End Torch.
Import Torch.


(* ------------------------------------------------------------------ *)
(** ** The external libraries *)

(** One parameter tensor of the network with its [requires_grad] flag. *)
Record Param (W : Type) : Type := mkParam {
  value : W;
  requires_grad : bool
}.
Arguments mkParam {W} value requires_grad.
Arguments value {W} p.
Arguments requires_grad {W} p.

Definition set_requires_grad {W} (b : bool) (p : Param W) : Param W :=
  mkParam (value p) b.

(** A batch source: the batches a [DataLoader] yields, in order. *)
Definition DataLoader (Data : Type) : Type := list (Data * tensor3 Z).

(** What the program uses of [torch], [torchmetrics], [unet.model] and the
    dataset, each at its interface.  A call that can fail returns an
    [outcome]. *)
Class TorchEnv : Type := {
  Data : Type;         (* an input batch, shape (B, 3, H, W) *)
  Weights : Type;      (* the value of one parameter tensor *)
  Blob : Type;         (* a deserialized state dict *)
  Metric : Type;       (* the state of one torchmetrics object *)
  (* unet.model.UNET(in_channels, out_channels).named_parameters() *)
  UNET : Z -> Z -> list (string * Param Weights);
  (* torchmetrics.Accuracy / Dice built from num_classes, ignore_index=0,
     mdmc_average="global", average="micro" *)
  Accuracy : Z -> Metric;
  Dice : Z -> Metric;
  (* the argument check both constructors make on these parameters *)
  torchmetrics_check : Z -> outcome unit;
  (* metric(preds, targets): the batch value, and the updated object *)
  metric_call : Metric -> tensor3 Z -> tensor3 Z -> outcome Q * Metric;
  (* metric.compute(): the exception it raises, if it raises one (as on an
     object that has seen no update), and the value it returns otherwise *)
  metric_compute_error : Metric -> option exn;
  metric_compute : Metric -> Q;
  (* torch.load(path) *)
  torch_load : string -> outcome (dict Blob);
  (* model.load_state_dict(blob) *)
  load_state_dict :
    Blob -> list (string * Param Weights)
    -> outcome (list (string * Param Weights));
  (* optimizer.load_state_dict(blob), for an optimizer bound to these names *)
  optimizer_load_state_dict : Blob -> list string -> outcome unit;
  (* self.model(data) under autocast *)
  model_call : list (string * Param Weights) -> Data -> outcome (tensor4 Q);
  softmax_dim1 : tensor4 Q -> tensor4 Q;
  (* nn.CrossEntropyLoss()(logits, targets), read with .item() *)
  CrossEntropyLoss : tensor4 Q -> tensor4 Q -> outcome Q;
  (* (predictions == targets).sum() / torch.numel(targets), read with .item() *)
  pixel_accuracy : tensor3 Z -> tensor3 Z -> outcome Q;
  (* zero_grad, scaled backward, scaler.step(optimizer), scaler.update():
     from the bound names, the optimizer state and the parameters to the
     new parameters and the new optimizer state *)
  optimizer_step :
    list string -> option Blob -> list (string * Param Weights) -> Data
    -> tensor4 Q -> outcome (list (string * Param Weights) * Blob);
  (* DataLoader(COCODataset(images_dir, masks_dir, image_ext, mask_ext,
     transform), batch_size, shuffle, num_workers, pin_memory); the
     transform is the one get_transforms builds for this image size, the
     training one when the flag is set *)
  coco_loader :
    string -> string -> Z -> bool -> Z -> bool -> Z -> bool
    -> outcome (DataLoader Data);
  (* tools.utils.create_directory(path) *)
  create_directory : string -> outcome unit;
  (* module constants computed at import time *)
  CHECKPOINT_DIR : string;
  cuda_device_count : Z
}.

(** [os.path.join] of a directory and a relative file name. *)
Definition join (a b : string) : string :=
  if String.eqb a "" then b
  else if endswith a "/" then (a ++ b)%string
  else (a ++ "/" ++ b)%string.

(** The module namespace seen by bare names inside the methods.  Run as a
    script, the file binds [FLAGS] (line 624) and none of the other names. *)
Module Namespace.

Record Flags : Type := mkFlags {
  images : string;
  masks : string;
  checkpoint : string;
  freeze : bool;
  debug : bool
}.

Record Globals : Type := mkGlobals {
  FLAGS : option Flags;
  alt_names : option (dict string);
  checkpoint_path : option string;
  freeze_name : option bool;        (* the bare name [freeze] *)
  accuracy : option Q;              (* the bare name [accuracy] *)
  save_checkpoint : bool            (* is a function of that name bound? *)
}.

Definition script_globals (flags : Flags) : Globals :=
  mkGlobals (Some flags) None None None None false.

Definition import_globals : Globals :=
  mkGlobals None None None None None false.

End Namespace.
Import Namespace(Globals, Flags).

(* ------------------------------------------------------------------ *)
(** ** class UNetMetrics (train.py, lines 34-205) *)

Module UNetMetrics.
Section WithEnv.
Context {env : TorchEnv}.

(** An element of a plot series: the step is an [int], the loss and the
    metric values are floats. *)
Inductive cell : Type :=
| CInt (z : Z)
| CFloat (q : Q).

Record t : Type := mk {
  num_classes : Z;
  _train : bool;
  metrics : dict (dict Metric);
  plots : dict (dict (list cell))
}.

Definition set_train (b : bool) (self : t) : t :=
  mk (num_classes self) b (metrics self) (plots self).
Definition set_metrics (m : dict (dict Metric)) (self : t) : t :=
  mk (num_classes self) (_train self) m (plots self).
Definition set_plots (p : dict (dict (list cell))) (self : t) : t :=
  mk (num_classes self) (_train self) (metrics self) p.

(** Lines 42-70.  Both comprehensions build fresh objects for each stage. *)
Definition __init__ (num_classes : Z) : t :=
  mk num_classes true
     (map (fun stage =>
             (stage, [("acc", Accuracy num_classes);
                      ("dice", Dice num_classes)]))
          ["train"; "val"])
     (map (fun stage =>
             (stage, [("step", []); ("loss", []); ("acc", []); ("dice", [])]))
          ["train"; "val"]).

(** Lines 72-82. *)
Definition train : M t unit := modify (set_train true).
Definition eval : M t unit := modify (set_train false).

(** [self.metrics[stage][name](preds, targets)]: the object is updated in
    place, also when the call raises. *)
Definition call_metric (stage name : string) (preds targets : tensor3 Z)
  : M t Q :=
  fun self =>
    match subscript (metrics self) stage with
    | Raise e => (Raise e, self)
    | Normal m =>
        match subscript m name with
        | Raise e => (Raise e, self)
        | Normal obj =>
            let (r, obj') := metric_call obj preds targets in
            (r, set_metrics (setitem stage (setitem name obj' m) (metrics self))
                            self)
        end
    end.

(** [self.plots[stage][name].append(c)]. *)
Definition append_plot (stage name : string) (c : cell) : M t unit :=
  fun self =>
    match subscript (plots self) stage with
    | Raise e => (Raise e, self)
    | Normal p =>
        match subscript p name with
        | Raise e => (Raise e, self)
        | Normal series =>
            (Normal tt,
             set_plots (setitem stage (setitem name (series ++ [c]) p)
                                (plots self))
                       self)
        end
    end.

(** Lines 84-102. *)
Definition update (step : Z) (loss : Q) (preds targets : tensor3 Z)
  : M t unit :=
  train_mode <- gets _train ;;
  let stage := if train_mode then "train" else "val" in
  acc <- call_metric stage "acc" preds targets ;;
  dice <- call_metric stage "dice" preds targets ;;
  append_plot stage "step" (CInt step) ;;;
  append_plot stage "loss" (CFloat loss) ;;;
  append_plot stage "acc" (CFloat acc) ;;;
  append_plot stage "dice" (CFloat dice).

(** Lines 104-114, on the values the metric objects compute: the dictionary
    [compute()] returns when no [metric.compute()] raises ([compute_call]
    below has the call with its exceptions).  The assignment
    [result[stage] = {metric_name: ...}] replaces the inner dictionary at
    every inner iteration. *)
Definition compute (self : t) : dict (dict Q) :=
  fold_left
    (fun result '(stage, m) =>
       fold_left
         (fun result '(metric_name, metric) =>
            setitem stage [(metric_name, metric_compute metric)] result)
         m result)
    (metrics self) [].

(** A row of the long-form table: (Batch, Stage, Metrics, Value). *)
Definition row : Type := cell * string * string * cell.

(** [list(zip(a, b, c, d))]: as long as the shortest argument. *)
Fixpoint zip4 {A B C D} (a : list A) (b : list B) (c : list C) (d : list D)
  : list (A * B * C * D) :=
  match a, b, c, d with
  | x :: a', y :: b', z :: c', w :: d' => (x, y, z, w) :: zip4 a' b' c' d'
  | _, _, _, _ => []
  end.

(** Lines 123-135, the body of the inner loop for one (metric_name, values). *)
Definition dataframe_rows_of (g : Globals) (self : t)
    (stage_name metric_name : string) (values : list cell)
    (df_list : list row) : outcome (list row) :=
  if negb (String.eqb metric_name "batch") then
    match lookup_name "alt_names" (Namespace.alt_names g) with
    | Raise e => Raise e
    | Normal names =>
        match subscript names stage_name with
        | Raise e => Raise e
        | Normal stage_label =>
            let stage_col := repeat stage_label (length values) in
            match subscript names metric_name with
            | Raise e => Raise e
            | Normal metric_label =>
                let metric_col := repeat metric_label (length values) in
                match subscript (plots self) stage_name with
                | Raise e => Raise e
                | Normal p =>
                    match subscript p "batch" with
                    | Raise e => Raise e
                    | Normal batch =>
                        Normal (df_list
                                ++ zip4 batch stage_col metric_col values)
                    end
                end
            end
        end
    end
  else Normal df_list.

(** A [for] loop whose body can raise, threading the accumulated value. *)
Fixpoint for_each {A B} (body : A -> B -> outcome B) (l : list A) (acc : B)
  : outcome B :=
  match l with
  | [] => Normal acc
  | x :: l' =>
      match body x acc with
      | Normal acc' => for_each body l' acc'
      | Raise e => Raise e
      end
  end.

(** Lines 116-144.  [alt_names] is a bare name here: the dictionary of that
    name is a local variable of [plot_graphs]. *)
Definition _to_dataframe (g : Globals) (self : t) : outcome (list row) :=
  for_each
    (fun '(stage_name, stage) df_list =>
       for_each
         (fun '(metric_name, values) df_list =>
            dataframe_rows_of g self stage_name metric_name values df_list)
         stage df_list)
    (plots self) [].

(** Lines 197-205: the table handed to [to_csv]. *)
Definition write_to_file (g : Globals) (filename : string) (self : t)
  : outcome (string * list row) :=
  match _to_dataframe g self with
  | Normal df => Normal (filename, df)
  | Raise e => Raise e
  end.

(** Lines 154-164: [plot_graphs] binds [alt_names] locally and then asks
    for the attribute [to_dataframe], which the class does not define. *)
Definition plot_graphs_alt_names : dict string :=
  [("loss", "Loss"); ("acc", "Accuracy"); ("dice", "Dice Score");
   ("train", "Training"); ("val", "Validation")].
Definition plot_graphs (output_dir : string) (self : t) : outcome unit :=
  let alt_names := plot_graphs_alt_names in
  Raise (AttributeError "to_dataframe").

(** *** Clients of the engine *)

Inductive call : Type :=
| CallTrain
| CallEval
| CallUpdate (step : Z) (loss : Q) (preds targets : tensor3 Z).

Definition do_call (c : call) : M t unit :=
  match c with
  | CallTrain => train
  | CallEval => eval
  | CallUpdate step loss preds targets => update step loss preds targets
  end.

(** A client that makes the calls in turn and carries on after an exception. *)
Fixpoint exec (cs : list call) (self : t) : t :=
  match cs with
  | [] => self
  | c :: cs' => exec cs' (snd (do_call c self))
  end.

(** A run of [update] calls, one per tuple of arguments. *)
Definition as_updates (args : list (Z * Q * tensor3 Z * tensor3 Z))
  : list call :=
  map (fun '(step, loss, p, q) => CallUpdate step loss p q) args.

Definition stage_of (self : t) : string :=
  if _train self then "train" else "val".
Definition other_stage (self : t) : string :=
  if _train self then "val" else "train".

Definition is_update (c : call) : bool :=
  match c with CallUpdate _ _ _ _ => true | _ => false end.

(** The number of [update] calls of [cs] made while [stage] was active and
    that returned. *)
Fixpoint updates_done (stage : string) (cs : list call) (self : t) : nat :=
  match cs with
  | [] => 0%nat
  | c :: cs' =>
      ((if is_update c && String.eqb (stage_of self) stage
           && is_normal (fst (do_call c self))
        then 1 else 0)
       + updates_done stage cs' (snd (do_call c self)))%nat
  end.

(** [self.plots[stage][name]], empty when a key is missing. *)
Definition series (stage name : string) (self : t) : list cell :=
  match getitem stage (plots self) with
  | Some p => match getitem name p with Some l => l | None => [] end
  | None => []
  end.

(** The shape [__init__] gives the two dictionaries: both stages, each
    with its two metric objects and its four series; the series of a stage
    all have length [nt] (train) or [nv] (val). *)
Inductive layout : t -> nat -> nat -> Prop :=
| Layout (n : Z) (mode : bool) (a1 d1 a2 d2 : Metric)
    (s1 l1 c1 e1 s2 l2 c2 e2 : list cell) (nt nv : nat) :
    length s1 = nt -> length l1 = nt -> length c1 = nt -> length e1 = nt ->
    length s2 = nv -> length l2 = nv -> length c2 = nv -> length e2 = nv ->
    layout
      (mk n mode
          [("train", [("acc", a1); ("dice", d1)]);
           ("val", [("acc", a2); ("dice", d2)])]
          [("train", [("step", s1); ("loss", l1); ("acc", c1); ("dice", e1)]);
           ("val", [("step", s2); ("loss", l2); ("acc", c2); ("dice", e2)])])
      nt nv.

(** A method leaves the mode flag and everything stored under key [k]
    untouched. *)
Definition keeps {A} (k : string) (m : M t A) : Prop :=
  forall self,
    let self' := snd (m self) in
    _train self' = _train self
    /\ getitem k (metrics self') = getitem k (metrics self)
    /\ getitem k (plots self') = getitem k (plots self).

(** [metric.compute()] as a call. *)
Definition metric_compute_call (metric : Metric) : outcome Q :=
  match metric_compute_error metric with
  | Some e => Raise e
  | None => Normal (metric_compute metric)
  end.

(** Lines 104-114 as a call: the loops of [compute], stopping at the first
    [metric.compute()] that raises. *)
Definition compute_call (self : t) : outcome (dict (dict Q)) :=
  for_each
    (fun '(stage, m) result =>
       for_each
         (fun '(metric_name, metric) result =>
            match metric_compute_call metric with
            | Normal v => Normal (setitem stage [(metric_name, v)] result)
            | Raise e => Raise e
            end)
         m result)
    (metrics self) [].

(** The metric objects in the order [compute] visits them, and the first
    exception their [compute()] raises, if any does. *)
Definition accumulators (self : t) : list Metric :=
  flat_map (fun '(_, m) => map snd m) (metrics self).

Fixpoint first_error (l : list Metric) : option exn :=
  match l with
  | [] => None
  | metric :: l' =>
      match metric_compute_error metric with
      | Some e => Some e
      | None => first_error l'
      end
  end.

(** [UNetMetrics(num_classes)] as an expression: the torchmetrics
    constructors of lines 57-58 can refuse their arguments; [__init__] is
    the object built when they do not. *)
Definition new (num_classes : Z) : outcome t :=
  match torchmetrics_check num_classes with
  | Normal _ => Normal (__init__ num_classes)
  | Raise e => Raise e
  end.

(** What C6 asks of [compute()] before ([s1]) and after ([s2]) the updates
    of the other phase: both calls return, with the same entry for
    [stage]. *)
Definition same_aggregate (stage : string) (s1 s2 : t) : Prop :=
  exists r1 r2,
    compute_call s1 = Normal r1
    /\ compute_call s2 = Normal r2
    /\ getitem stage r2 = getitem stage r1.

(** The number of [update] calls of [cs] made while [stage] was active,
    whatever their outcome. *)
Fixpoint updates_made (stage : string) (cs : list call) (self : t) : nat :=
  match cs with
  | [] => 0%nat
  | c :: cs' =>
      ((if is_update c && String.eqb (stage_of self) stage then 1 else 0)
       + updates_made stage cs' (snd (do_call c self)))%nat
  end.

Definition stages : list string := ["train"; "val"].
Definition series_names : list string := ["step"; "loss"; "acc"; "dice"].

(** What C10 asks of the series after the calls [cs]: each of the four
    series of a stage is as long as the number of [update] calls made while
    that stage was active. *)
Definition series_count_claim (cs : list call) (self : t) : Prop :=
  Forall (fun stage =>
            Forall (fun name =>
                      length (series stage name (exec cs self))
                      = updates_made stage cs self)
                   series_names)
         stages.

End WithEnv.
End UNetMetrics.

(* ------------------------------------------------------------------ *)
(** ** class UNetTrainer (train.py, lines 208-588) *)

Module UNetTrainer.
Section WithEnv.
Context {env : TorchEnv}.

(** The effects on the world outside the object, in the order they happen. *)
Inductive event : Type :=
| EvModelConstruct (in_channels out_channels : Z)
| EvOptimizerBind (names : list string)
| EvTorchLoad (path : string)
| EvLoadModelState
| EvLoadOptimizerState
| EvFreezePolicy (freeze : bool)
| EvCreateDirectory (path : string)
| EvTorchSave (filename : string)
| EvToCsv (path : string).

(** [nn.Module]: the mode flag and the named parameters. *)
Record Model : Type := mkModel {
  training : bool;
  named_parameters : list (string * Param Weights)
}.

(** [optim.Adam]: the parameters it was constructed on, by name, its
    learning rate and its state, empty ([None]) until a [load_state_dict]
    or a step fills it. *)
Record Optimizer : Type := mkOptimizer {
  param_names : list string;
  lr : Q;
  state : option Blob
}.

(** What the attribute [metrics] holds.  [__init__] stores a [UNetMetrics];
    [train_fn], the validation passes and [run] subscript it like the
    dictionary of torchmetrics objects kept inside a [UNetMetrics]. *)
Inductive MetricsAttr : Type :=
| EngineObj (m : UNetMetrics.t)
| DictObj (d : dict (dict Metric)).

(** The object.  An attribute that [__init__] may not have assigned yet is
    an [option]; [checkpoint_path] is assigned nowhere in the class. *)
Record t : Type := mk {
  image_size : Z;
  num_classes : Z;
  batch_size : Z;
  num_epochs : Z;
  learning_rate : Q;
  checkpoint_dir : string;
  freeze : bool;
  num_workers : Z;
  pin_memory : bool;
  model : Model;
  optimizer : Optimizer;
  checkpoint_path : option string;
  metrics : option MetricsAttr;
  events : list event
}.

Definition set_model (m : Model) (s : t) : t :=
  mk (image_size s) (num_classes s) (batch_size s) (num_epochs s)
     (learning_rate s) (checkpoint_dir s) (freeze s) (num_workers s)
     (pin_memory s) m (optimizer s) (checkpoint_path s) (metrics s) (events s).
Definition set_optimizer (o : Optimizer) (s : t) : t :=
  mk (image_size s) (num_classes s) (batch_size s) (num_epochs s)
     (learning_rate s) (checkpoint_dir s) (freeze s) (num_workers s)
     (pin_memory s) (model s) o (checkpoint_path s) (metrics s) (events s).
Definition set_metrics (a : option MetricsAttr) (s : t) : t :=
  mk (image_size s) (num_classes s) (batch_size s) (num_epochs s)
     (learning_rate s) (checkpoint_dir s) (freeze s) (num_workers s)
     (pin_memory s) (model s) (optimizer s) (checkpoint_path s) a (events s).
Definition set_events (l : list event) (s : t) : t :=
  mk (image_size s) (num_classes s) (batch_size s) (num_epochs s)
     (learning_rate s) (checkpoint_dir s) (freeze s) (num_workers s)
     (pin_memory s) (model s) (optimizer s) (checkpoint_path s) (metrics s) l.

Definition set_parameters (ps : list (string * Param Weights)) (s : t) : t :=
  set_model (mkModel (training (model s)) ps) s.

Definition emit (e : event) : M t unit :=
  modify (fun s => set_events (events s ++ [e]) s).

(** [self.<name>] for an attribute that may be missing. *)
Definition attribute {A} (name : string) (field : t -> option A) : M t A :=
  fun s =>
    match field s with
    | Some a => (Normal a, s)
    | None => (Raise (AttributeError name), s)
    end.

(** [self.model.eval()] and [self.model.train()]. *)
Definition model_eval : M t unit :=
  modify (fun s => set_model (mkModel false (named_parameters (model s))) s).
Definition model_train : M t unit :=
  modify (fun s => set_model (mkModel true (named_parameters (model s))) s).

(** Lines 302-312, the last block of [load_checkpoint]; [freeze] is the
    value its bare name evaluates to. *)
Definition apply_freeze_policy (freeze : bool) : M t unit :=
  emit (EvFreezePolicy freeze) ;;;
  modify (fun s =>
    set_parameters
      (if negb freeze
       then map (fun '(name, param) => (name, set_requires_grad true param))
                (named_parameters (model s))
       else map (fun '(name, param) =>
                   if startswith name "final_conv"
                   then (name, set_requires_grad true param)
                   else (name, set_requires_grad false param))
                (named_parameters (model s)))
      s).

(** Lines 285-312. *)
Definition load_checkpoint (g : Globals) : M t unit :=
  path <- attribute "checkpoint_path" checkpoint_path ;;
  if negb (endswith path ".pth.tar")
  then raise (ValueError
                ("Checkpoint " ++ path
                 ++ " not valid checkpoint file type (expected: .pth.tar)")%string)
  else
    file <- lift (lookup_name "checkpoint_path" (Namespace.checkpoint_path g)) ;;
    emit (EvTorchLoad file) ;;;
    checkpoint <- lift (torch_load file) ;;
    state_dict <- lift (subscript checkpoint "state_dict") ;;
    emit EvLoadModelState ;;;
    params <- gets (fun s => named_parameters (model s)) ;;
    params' <- lift (load_state_dict state_dict params) ;;
    modify (set_parameters params') ;;;
    opt_dict <- lift (subscript checkpoint "optimizer") ;;
    emit EvLoadOptimizerState ;;;
    opt <- gets optimizer ;;
    lift (optimizer_load_state_dict opt_dict (param_names opt)) ;;;
    modify (set_optimizer (mkOptimizer (param_names opt) (lr opt)
                                       (Some opt_dict))) ;;;
    freeze <- lift (lookup_name "freeze" (Namespace.freeze_name g)) ;;
    apply_freeze_policy freeze.

(** Lines 263-266: Adam on the parameters that require grad at that time. *)
Definition Adam (params : list (string * Param Weights)) (lr : Q) : Optimizer :=
  mkOptimizer (map fst (filter (fun np => requires_grad (snd np)) params))
              lr None.

(** [nn.DataParallel(model)]: the parameters are those of the wrapped
    module, under the prefix [module.]. *)
Definition DataParallel (s : t) : t :=
  set_parameters
    (map (fun '(name, param) => (("module." ++ name)%string, param))
         (named_parameters (model s)))
    s.

(** Lines 232-283.  [UNET] and [Adam] are the objects the two constructor
    calls return; the calls that follow can each raise. *)
Definition __init__ (g : Globals)
    (image_size num_classes batch_size num_epochs : Z) (learning_rate : Q)
    (checkpoint_dir : string) (freeze : bool) (num_workers : Z)
    (pin_memory : bool) : outcome unit * t :=
  let model := mkModel true (UNET 3 num_classes) in
  let optimizer := Adam (named_parameters model) learning_rate in
  let self :=
    mk image_size num_classes batch_size num_epochs learning_rate
       checkpoint_dir freeze num_workers pin_memory model optimizer None None
       [EvModelConstruct 3 num_classes;
        EvOptimizerBind (param_names optimizer)] in
  ((if negb (String.eqb checkpoint_dir "") then load_checkpoint g else ret tt) ;;;
   (if 1 <? cuda_device_count then modify DataParallel else ret tt) ;;;
   emit (EvCreateDirectory CHECKPOINT_DIR) ;;;
   lift (create_directory CHECKPOINT_DIR) ;;;
   metrics <- lift (UNetMetrics.new num_classes) ;;
   modify (set_metrics (Some (EngineObj metrics))))
    self.

(** Lines 314-316. *)
Definition save_checkpoint (filename : string) : M t unit :=
  emit (EvTorchSave filename).

(** Lines 353-387, called on the transforms of lines 318-351, which are
    built from [self.image_size].  The training dataset and its loader are
    constructed first, then the validation ones. *)
Definition get_coco_loaders (g : Globals)
  : M t (DataLoader Data * DataLoader Data) :=
  flags <- lift (lookup_name "FLAGS" (Namespace.FLAGS g)) ;;
  self <- gets (fun s => s) ;;
  train_loader <-
    lift (coco_loader (join (Namespace.images flags) "train2017")
                      (join (Namespace.masks flags) "train2017")
                      (image_size self) true
                      (batch_size self) true
                      (num_workers self) (pin_memory self)) ;;
  val_loader <-
    lift (coco_loader (join (Namespace.images flags) "val2017")
                      (join (Namespace.masks flags) "val2017")
                      (image_size self) false
                      (batch_size self) false
                      (num_workers self) (pin_memory self)) ;;
  ret (train_loader, val_loader).

(** Lines 389-401. *)
Definition one_hot_encoding (self : t) (label : tensor3 Z)
  : outcome (tensor4 Z) :=
  match one_hot (long label) (num_classes self) with
  | Normal (C, one_hot) => Normal (permute_0312 0 C one_hot)
  | Raise e => Raise e
  end.

(** [torch.argmax(targets, axis=1).int()] (lines 424, 465, 507). *)
Definition argmax_int (targets : tensor4 Q) : outcome (tensor3 Z) :=
  match argmax_dim1 targets with
  | Normal idx => Normal (int idx)
  | Raise e => Raise e
  end.

(** [for name, metric in self.metrics[stage].items(): metric(p, t)], over
    the items of the inner dictionary. *)
Fixpoint call_items (stage : string) (items : list (string * Metric))
    (predictions targets : tensor3 Z) : M t unit :=
  match items with
  | [] => ret tt
  | (name, metric) :: rest =>
      (fun s =>
         let (r, metric') := metric_call metric predictions targets in
         let s' :=
           match metrics s with
           | Some (DictObj d) =>
               match getitem stage d with
               | Some m =>
                   set_metrics
                     (Some (DictObj (setitem stage (setitem name metric' m) d)))
                     s
               | None => s
               end
           | _ => s
           end in
         match r with
         | Normal _ => (Normal tt, s')
         | Raise e => (Raise e, s')
         end) ;;;
      call_items stage rest predictions targets
  end.

Definition call_metrics (stage : string) (predictions targets : tensor3 Z)
  : M t unit :=
  attr <- attribute "metrics" metrics ;;
  match attr with
  | EngineObj _ => raise (TypeError "'UNetMetrics' object is not subscriptable")
  | DictObj d =>
      m <- lift (subscript d stage) ;;
      call_items stage m predictions targets
  end.

(** [with torch.no_grad():] gradient recording is not part of the state. *)
Definition no_grad {A} (block : M t A) : M t A := block.

Definition next_iter {A} (loader : list A) : outcome A :=
  match loader with
  | batch :: _ => Normal batch
  | [] => Raise StopIteration
  end.

(** Lines 419-422: [zero_grad], the scaled backward pass,
    [scaler.step(self.optimizer)] and [scaler.update()].  The step writes
    the parameters and the state of the optimizer. *)
Definition backward_step (data : Data) (targets : tensor4 Q) : M t unit :=
  fun s =>
    let opt := optimizer s in
    match optimizer_step (param_names opt) (state opt)
                         (named_parameters (model s)) data targets with
    | Normal (params', state') =>
        (Normal tt,
         set_optimizer (mkOptimizer (param_names opt) (lr opt) (Some state'))
                       (set_parameters params' s))
    | Raise e => (Raise e, s)
    end.

(** Lines 403-440. *)
Fixpoint train_fn (loader : DataLoader Data) (epoch : nat) : M t unit :=
  match loader with
  | [] => ret tt
  | (data, targets) :: rest =>
      self <- gets (fun s => s) ;;
      targets <- lift (one_hot_encoding self targets) ;;
      let targets := float targets in
      logits <- lift (model_call (named_parameters (model self)) data) ;;
      loss <- lift (CrossEntropyLoss logits targets) ;;
      backward_step data targets ;;;
      targets <- lift (argmax_int targets) ;;
      predictions <- lift (argmax_dim1 logits) ;;
      accuracy <- lift (pixel_accuracy predictions targets) ;;
      call_metrics "train" predictions targets ;;;
      train_fn rest epoch
  end.

(** The [{loss, accuracy}] dictionary a validation pass returns. *)
Definition summary : Type := dict Q.

(** Lines 452-476, the block under [with torch.no_grad():] in
    [validate_one_batch]; it yields the locals [loss] and [accuracy]. *)
Definition validate_one_batch_block (loader : DataLoader Data) : M t (Q * Q) :=
  '(data, targets) <- lift (next_iter loader) ;;
  self <- gets (fun s => s) ;;
  targets <- lift (one_hot_encoding self targets) ;;
  let targets := float targets in
  logits <- lift (model_call (named_parameters (model self)) data) ;;
  let logits := softmax_dim1 logits in
  loss <- lift (CrossEntropyLoss logits targets) ;;
  targets <- lift (argmax_int targets) ;;
  predictions <- lift (argmax_dim1 logits) ;;
  accuracy <- lift (pixel_accuracy predictions targets) ;;
  call_metrics "val" predictions targets ;;;
  ret (loss, accuracy).

(** Lines 442-484. *)
Definition validate_one_batch (loader : DataLoader Data) : M t summary :=
  model_eval ;;;
  '(loss, accuracy) <- no_grad (validate_one_batch_block loader) ;;
  model_train ;;;
  ret [("loss", loss); ("accuracy", accuracy)].

(** Lines 498-518, the loop of [validate_fn].  [accuracy] is never assigned
    in that function, so it is a bare module-level name there. *)
Fixpoint validate_fn_loop (g : Globals) (loader : DataLoader Data)
    (running_loss running_accuracy : Q) : M t (Q * Q) :=
  match loader with
  | [] => ret (running_loss, running_accuracy)
  | (data, targets) :: rest =>
      self <- gets (fun s => s) ;;
      targets <- lift (one_hot_encoding self targets) ;;
      let targets := float targets in
      logits <- lift (model_call (named_parameters (model self)) data) ;;
      let logits := softmax_dim1 logits in
      loss <- lift (CrossEntropyLoss logits targets) ;;
      targets <- lift (argmax_int targets) ;;
      predictions <- lift (argmax_dim1 logits) ;;
      call_metrics "val" predictions targets ;;;
      let running_loss := (running_loss + loss)%Q in
      accuracy <- lift (lookup_name "accuracy" (Namespace.accuracy g)) ;;
      let running_accuracy := (running_accuracy + accuracy)%Q in
      validate_fn_loop g rest running_loss running_accuracy
  end.

(** [x / len(loader)] on a float and an [int]. *)
Definition float_div (x : Q) (n : nat) : outcome Q :=
  match n with
  | O => Raise ZeroDivisionError
  | S _ => Normal (x / inject_Z (Z.of_nat n))%Q
  end.

(** Lines 486-529. *)
Definition validate_fn (g : Globals) (loader : DataLoader Data) : M t summary :=
  model_eval ;;;
  '(running_loss, running_accuracy) <-
    no_grad (validate_fn_loop g loader 0%Q 0%Q) ;;
  mean_loss <- lift (float_div running_loss (length loader)) ;;
  mean_accuracy <- lift (float_div running_accuracy (length loader)) ;;
  model_train ;;;
  ret [("loss", mean_loss); ("accuracy", mean_accuracy)].

Definition Qlt_bool (x y : Q) : bool := negb (Qle_bool y x).

(** [f"unet1.0-coco-epoch{epoch}.pth.tar"]. *)
Definition checkpoint_filename (epoch : nat) : string :=
  ("unet1.0-coco-epoch" ++ NilZero.string_of_uint (Nat.to_uint epoch)
   ++ ".pth.tar")%string.

(** Lines 548-568: the statements of the loop body that follow [return].
    Yields the new value of the local [best_loss]. *)
Definition save_if_best (g : Globals) (epoch : nat) (results : summary)
    (best_loss : Q) : M t (flow unit * Q) :=
  _ <- lift (subscript results "loss") ;;
  _ <- lift (subscript results "accuracy") ;;
  loss <- lift (subscript results "loss") ;;
  if Qlt_bool loss best_loss then
    best_loss <- lift (subscript results "loss") ;;
    flags <- lift (lookup_name "FLAGS" (Namespace.FLAGS g)) ;;
    (if negb (Namespace.debug flags) then
       if Namespace.save_checkpoint g
       then save_checkpoint (join CHECKPOINT_DIR (checkpoint_filename epoch))
       else raise (NameError "save_checkpoint")
     else ret tt) ;;;
    ret (Fallthrough, best_loss)
  else ret (Fallthrough, best_loss).

(** Statement sequencing: what follows a [return] is not run. *)
Definition then_ {R L} (first : M t (flow R)) (locals : L)
    (rest : M t (flow R * L)) : M t (flow R * L) :=
  f <- first ;;
  match f with
  | Returned r => ret (Returned r, locals)
  | Fallthrough => rest
  end.

Definition return_ {R} (r : R) : M t (flow R) := ret (Returned r).

(** Lines 540-568: [for epoch in range(self.num_epochs)].  The result holds
    the locals [best_loss] and [epoch] (unbound before the first
    iteration). *)
Fixpoint epoch_loop (g : Globals) (val_loader : DataLoader Data)
    (epochs : list nat) (best_loss : Q) (last_epoch : option nat)
  : M t (flow unit * (Q * option nat)) :=
  match epochs with
  | [] => ret (Fallthrough, (best_loss, last_epoch))
  | epoch :: rest =>
      results <- validate_fn g val_loader ;;
      '(f, best_loss') <-
        then_ (return_ tt) best_loss (save_if_best g epoch results best_loss) ;;
      match f with
      | Returned r => ret (Returned r, (best_loss', Some epoch))
      | Fallthrough => epoch_loop g val_loader rest best_loss' (Some epoch)
      end
  end.

(** [self.metrics[key]] on whatever the attribute holds. *)
Definition metrics_subscript (key : string) : M t (dict Metric) :=
  attr <- attribute "metrics" metrics ;;
  match attr with
  | EngineObj _ => raise (TypeError "'UNetMetrics' object is not subscriptable")
  | DictObj d => lift (subscript d key)
  end.

(** Lines 531-588. *)
Definition run (g : Globals) : M t unit :=
  '(train_loader, val_loader) <- get_coco_loaders g ;;
  let best_loss := 9999%Q in
  self <- gets (fun s => s) ;;
  '(f, (best_loss, epoch)) <-
    epoch_loop g val_loader (seq 0 (Z.to_nat (num_epochs self))) best_loss None ;;
  match f with
  | Returned _ => ret tt
  | Fallthrough =>
      results <- validate_fn g val_loader ;;
      _ <- lift (match epoch with
                 | Some e => Normal e
                 | None => Raise (UnboundLocalError "epoch")
                 end) ;;
      _ <- lift (subscript results "loss") ;;
      _ <- lift (subscript results "jaccard") ;;
      _ <- lift (subscript results "accuracy") ;;
      _ <- metrics_subscript "loss" ;;
      emit (EvToCsv (join CHECKPOINT_DIR "loss.csv")) ;;;
      _ <- metrics_subscript "acc" ;;
      emit (EvToCsv (join CHECKPOINT_DIR "accuracy.csv"))
  end.

(** The events a call added to the log. *)
Definition new_events (before after : t) : list event :=
  skipn (length (events before)) (events after).

Definition is_bind (e : event) : bool :=
  match e with EvOptimizerBind _ => true | _ => false end.
Definition is_freeze (e : event) : bool :=
  match e with EvFreezePolicy _ => true | _ => false end.
Definition is_load (e : event) : bool :=
  match e with EvTorchLoad _ => true | _ => false end.
Definition is_save (e : event) : bool :=
  match e with EvTorchSave _ => true | _ => false end.

(** Is the optimizer bound at a point of the log where no freeze policy has
    been applied yet? *)
Fixpoint bound_before_freeze (log : list event) : bool :=
  match log with
  | [] => false
  | e :: log' =>
      if is_freeze e then false
      else if is_bind e then true
      else bound_before_freeze log'
  end.

(** Does the log contain, in this order, a checkpoint load, a freeze policy
    and an optimizer binding? *)
Fixpoint load_freeze_bind (stage : nat) (log : list event) : bool :=
  match log with
  | [] => false
  | e :: log' =>
      match stage with
      | 0%nat => load_freeze_bind (if is_load e then 1 else 0) log'
      | 1%nat => load_freeze_bind (if is_freeze e then 2 else 1) log'
      | _ => is_bind e || load_freeze_bind stage log'
      end
  end.

(** What C4 asks of the log of an initialization from a checkpoint: load,
    freeze policy and optimizer binding in that order, and no binding ahead
    of the freeze policy. *)
Definition initialization_order_claim (log : list event) : Prop :=
  load_freeze_bind 0 log = true /\ bound_before_freeze log = false.

(** The statements that follow [return] in the loop body, run for
    consecutive epochs on the given validation losses: the policy the loop
    would apply if line 546 were not there. *)
Fixpoint policy_after_return (g : Globals) (losses : list Q) (epoch : nat)
    (best_loss : Q) : M t unit :=
  match losses with
  | [] => ret tt
  | loss :: rest =>
      '(_, best_loss') <-
        save_if_best g epoch [("loss", loss); ("accuracy", 0%Q)] best_loss ;;
      policy_after_return g rest (S epoch) best_loss'
  end.

(** A method leaves the observation [f] of the object unchanged. *)
Definition preserves {X A} (f : t -> X) (m : M t A) : Prop :=
  forall s, f (snd (m s)) = f s.

Definition mode (s : t) : bool := training (model s).

End WithEnv.
End UNetTrainer.

(* ------------------------------------------------------------------ *)
(** ** A small concrete environment, used to run the definitions *)

Module Example.

(** A counting metric: elements whose target is not the ignored class 0,
    and how many of them were predicted right. *)
Record Counter : Type := mkCounter {
  hits : Z;
  seen : Z
}.

Fixpoint same_shape2 (a b : list (list Z)) : bool :=
  match a, b with
  | [], [] => true
  | x :: a', y :: b' => (length x =? length y)%nat && same_shape2 a' b'
  | _, _ => false
  end.
Fixpoint same_shape3 (a b : tensor3 Z) : bool :=
  match a, b with
  | [], [] => true
  | x :: a', y :: b' => same_shape2 x y && same_shape3 a' b'
  | _, _ => false
  end.

Definition counted (preds targets : tensor3 Z) : list (Z * Z) :=
  filter (fun pt => negb (snd pt =? 0))
         (combine (entries3 preds) (entries3 targets)).

Definition ratio (h n : Z) : Q := (inject_Z h / inject_Z n)%Q.

Definition counter_call (m : Counter) (preds targets : tensor3 Z)
  : outcome Q * Counter :=
  if same_shape3 preds targets then
    let c := counted preds targets in
    let h := Z.of_nat (length (filter (fun pt => fst pt =? snd pt) c)) in
    let n := Z.of_nat (length c) in
    (Normal (ratio h n), mkCounter (hits m + h) (seen m + n))
  else
    (Raise (RuntimeError
              "Predictions and targets are expected to have the same shape"),
     m).

Definition network : list (string * Param Z) :=
  [("downs.0.conv.0.weight", mkParam 1 true);
   ("bottleneck.conv.0.weight", mkParam 2 true);
   ("final_conv.weight", mkParam 3 true);
   ("final_conv.bias", mkParam 4 true)].

Definition stored_checkpoint : dict (dict Z) :=
  [("state_dict",
    [("downs.0.conv.0.weight", 10); ("bottleneck.conv.0.weight", 20);
     ("final_conv.weight", 30); ("final_conv.bias", 40)]);
   ("optimizer", [("step", 7)])].

Definition example_load (path : string) : outcome (dict (dict Z)) :=
  if String.eqb path "weights/unet.pth.tar" then Normal stored_checkpoint
  else Raise (RuntimeError "No such file or directory").

Definition example_load_state_dict (blob : dict Z)
    (params : list (string * Param Z)) : outcome (list (string * Param Z)) :=
  if forallb (fun np => match getitem (fst np) blob with
                        | Some _ => true
                        | None => false
                        end) params
  then Normal (map (fun '(name, p) =>
                      (name, mkParam (match getitem name blob with
                                      | Some w => w
                                      | None => value p
                                      end) (requires_grad p)))
                   params)
  else Raise (RuntimeError "Error(s) in loading state_dict for UNET").

Definition same_shape4 (a : tensor4 Q) (b : tensor4 Q) : bool :=
  (length a =? length b)%nat
  && forallb (fun ab => (length (fst ab) =? length (snd ab))%nat) (combine a b).

Definition example_loss (logits targets : tensor4 Q) : outcome Q :=
  if same_shape4 logits targets then Normal (inject_Z (Z.of_nat (length logits)))
  else Raise (ValueError "Expected input batch_size to match target batch_size").

Definition example_pixel_accuracy (predictions targets : tensor3 Z)
  : outcome Q :=
  if same_shape3 predictions targets then
    let pairs := combine (entries3 predictions) (entries3 targets) in
    Normal (ratio (Z.of_nat (length (filter (fun pt => fst pt =? snd pt) pairs)))
                  (Z.of_nat (length pairs)))
  else Raise (RuntimeError "The size of tensor a must match the size of tensor b").

(** One batch of one 1x2 image over two classes. *)
Definition example_batch : tensor4 Q * tensor3 Z :=
  ([[ [[0%Q; 1%Q]]; [[1%Q; 0%Q]] ]], [[[1; 0]]]).

(** The counters refuse a single class: the ignored class 0 is then the
    only one. *)
Definition example_check (num_classes : Z) : outcome unit :=
  if num_classes <? 2
  then Raise (ValueError "ignore_index leaves no class to count")
  else Normal tt.

(** A counter that has seen nothing has no value to compute. *)
Definition counter_compute_error (m : Counter) : option exn :=
  if seen m =? 0
  then Some (RuntimeError "compute called before any update")
  else None.

(** A step that counts itself in the optimizer state and leaves the values
    as they are; the backward pass needs a parameter that requires grad. *)
Definition example_step (names : list string) (state : option (dict Z))
    (params : list (string * Param Z)) (data targets : tensor4 Q)
  : outcome (list (string * Param Z) * dict Z) :=
  if existsb (fun np => requires_grad (snd np)) params then
    Normal (params,
            [("step",
              match state with
              | Some d => match getitem "step" d with
                          | Some k => k + 1
                          | None => 1
                          end
              | None => 1
              end)])
  else Raise (RuntimeError "element 0 of tensors does not require grad").

(** A loader of one batch, whatever the directories; the loader refuses a
    batch size below one and a negative number of workers. *)
Definition example_loader (images masks : string) (image_size : Z)
    (train : bool) (batch_size : Z) (shuffle : bool) (num_workers : Z)
    (pin_memory : bool) : outcome (DataLoader (tensor4 Q)) :=
  if num_workers <? 0
  then Raise (ValueError "num_workers option should be non-negative")
  else if batch_size <? 1
  then Raise (ValueError "batch_size should be a positive integer value")
  else Normal [example_batch].

Definition env : TorchEnv := {|
  Data := tensor4 Q;
  Weights := Z;
  Blob := dict Z;
  Metric := Counter;
  UNET := fun _ _ => network;
  Accuracy := fun _ => mkCounter 0 0;
  Dice := fun _ => mkCounter 0 0;
  torchmetrics_check := example_check;
  metric_call := counter_call;
  metric_compute_error := counter_compute_error;
  metric_compute := fun m => ratio (hits m) (seen m);
  torch_load := example_load;
  load_state_dict := example_load_state_dict;
  optimizer_load_state_dict := fun _ _ => Normal tt;
  model_call := fun _ data => Normal data;
  softmax_dim1 := fun t => t;
  CrossEntropyLoss := example_loss;
  pixel_accuracy := example_pixel_accuracy;
  optimizer_step := example_step;
  coco_loader := example_loader;
  create_directory := fun _ => Normal tt;
  CHECKPOINT_DIR := "/home/dkermany/BoneSegmentation/checkpoints/11032026";
  cuda_device_count := 1
|}.
#[local] Existing Instance env.

Definition flags : Flags :=
  Namespace.mkFlags "data/images" "data/masks" "" false false.

(** The engine after one training update and one validation update. *)
Definition engine_calls : list UNetMetrics.call :=
  [UNetMetrics.CallUpdate 0 (1 # 2) [[[1; 0]]] [[[1; 1]]];
   UNetMetrics.CallEval;
   UNetMetrics.CallUpdate 0 (1 # 4) [[[1; 1]]] [[[1; 1]]]].

(** A trainer as [__init__] leaves it when no checkpoint is asked for. *)
Definition fresh_trainer : UNetTrainer.t :=
  snd (UNetTrainer.__init__ (Namespace.script_globals flags)
         256 2 1 4 (5 # 10000) "" false 4 false).

(** The same trainer once a caller has set [checkpoint_path] and replaced
    [metrics] by a dictionary of metric objects. *)
Definition prepared_trainer (path : string) : UNetTrainer.t :=
  let s := fresh_trainer in
  UNetTrainer.mk
    (UNetTrainer.image_size s) (UNetTrainer.num_classes s)
    (UNetTrainer.batch_size s) (UNetTrainer.num_epochs s)
    (UNetTrainer.learning_rate s) (UNetTrainer.checkpoint_dir s)
    (UNetTrainer.freeze s) (UNetTrainer.num_workers s)
    (UNetTrainer.pin_memory s) (UNetTrainer.model s) (UNetTrainer.optimizer s)
    (Some path)
    (Some (UNetTrainer.DictObj
             [("train", [("acc", mkCounter 0 0)]);
              ("val", [("acc", mkCounter 0 0)])]))
    (UNetTrainer.events s).

Definition prepared_globals : Globals :=
  Namespace.mkGlobals (Some flags) None (Some "weights/unet.pth.tar")
                      (Some true) (Some (1 # 2)) true.

Definition prepared : UNetTrainer.t := prepared_trainer "weights/unet.pth.tar".

(** A loader whose only batch holds two images and one label map. *)
Definition mismatched_loader : DataLoader (tensor4 Q) :=
  [(fst example_batch ++ fst example_batch, snd example_batch)].

(** The engine after the three calls of [engine_calls]. *)
Definition engine_state : UNetMetrics.t :=
  UNetMetrics.exec engine_calls (UNetMetrics.__init__ 2).

(** One more validation update. *)
Definition validation_updates : list (Z * Q * tensor3 Z * tensor3 Z) :=
  [(1, 1 # 8, [[[1; 0]]], [[[1; 1]]])].

(** The engine after one training update, and after [eval] and the
    validation update that follow it. *)
Definition trained_engine : UNetMetrics.t :=
  UNetMetrics.exec [UNetMetrics.CallUpdate 0 (1 # 2) [[[1; 0]]] [[[1; 1]]]]
                   (UNetMetrics.__init__ 2).
Definition validated_engine : UNetMetrics.t :=
  UNetMetrics.exec (UNetMetrics.as_updates validation_updates)
                   (snd (UNetMetrics.eval trained_engine)).

(** An update whose predictions and targets differ in shape. *)
Definition refused_calls : list UNetMetrics.call :=
  [UNetMetrics.CallUpdate 0 (1 # 2) [[[1; 0]]] [[[1]]]].

End Example.

(* ------------------------------------------------------------------ *)
(** ** The script (train.py, lines 21-29 and 591-641) *)

Module Script.
Section WithEnv.
Context {env : TorchEnv}.

(** Lines 22-29. *)
Definition LEARNING_RATE : Q := 5 # 10000.
Definition BATCH_SIZE : Z := 100.
Definition NUM_CLASSES : Z := 80 + 1.
Definition NUM_EPOCHS : Z := 80.
Definition NUM_WORKERS : Z := 4.
Definition IMAGE_SIZE : Z := 256.
Definition PIN_MEMORY (cuda_is_available : bool) : bool :=
  if cuda_is_available then true else false.

(** Lines 34-84: the body of [class UNetMetrics] runs when the module
    does.  The [def] of [update] (line 84) is annotated with the name
    [Tensor], bound nowhere in the module; an interpreter that evaluates
    annotations when the [def] is executed (Python up to 3.13) raises
    there, one that defers them (from 3.14) goes on. *)
Definition class_UNetMetrics (eager_annotations : bool) : outcome unit :=
  if eager_annotations then Raise (NameError "Tensor") else Normal tt.

(** The module run as a script: the class statement above, then lines
    624-641 once the arguments are parsed into [FLAGS].  The result holds
    the trainer when the constructor was entered.  [checkpoint_dir] is not
    among the keyword arguments of the constructor call, so it takes its
    default, the empty string. *)
Definition main (eager_annotations cuda_is_available : bool) (flags : Flags)
  : outcome unit * option UNetTrainer.t :=
  let g := Namespace.script_globals flags in
  match class_UNetMetrics eager_annotations with
  | Raise e => (Raise e, None)
  | Normal _ =>
      if Namespace.freeze flags && String.eqb (Namespace.checkpoint flags) ""
      then (Raise (ValueError
                     "Must specify a checkpoint file (.pth.tar) for freeze"),
            None)
      else
        match UNetTrainer.__init__ g IMAGE_SIZE NUM_CLASSES BATCH_SIZE
                NUM_EPOCHS LEARNING_RATE "" (Namespace.freeze flags)
                NUM_WORKERS (PIN_MEMORY cuda_is_available) with
        | (Normal _, trainer) =>
            let (r, trainer') := UNetTrainer.run g trainer in
            (r, Some trainer')
        | (Raise e, trainer) => (Raise e, Some trainer)
        end
  end.

End WithEnv.
End Script.

(* ------------------------------------------------------------------ *)
(** ** What a sequence of engine calls has recorded *)

Module History.
Section WithEnv.
Context {env : TorchEnv}.

(** The [(step, loss)] arguments of the [update] calls of [cs] that were
    made while [stage] was active and that returned, in call order. *)
Fixpoint recorded (stage : string) (cs : list UNetMetrics.call)
    (self : UNetMetrics.t) : list (Z * Q) :=
  match cs with
  | [] => []
  | c :: cs' =>
      (match c with
       | UNetMetrics.CallUpdate step loss _ _ =>
           if String.eqb (UNetMetrics.stage_of self) stage
              && is_normal (fst (UNetMetrics.do_call c self))
           then [(step, loss)] else []
       | _ => []
       end)
      ++ recorded stage cs' (snd (UNetMetrics.do_call c self))
  end.

(** The element of a 4-d tensor at [b][c][h][w], when it exists. *)
Definition at4 {A} (t : tensor4 A) (b c h w : nat) : option A :=
  match nth_error t b with
  | Some planes =>
      match nth_error planes c with
      | Some plane =>
          match nth_error plane h with
          | Some row => nth_error row w
          | None => None
          end
      | None => None
      end
  | None => None
  end.

(** The element of a 3-d tensor at [b][h][w], when it exists. *)
Definition at3 {A} (t : tensor3 A) (b h w : nat) : option A :=
  match nth_error t b with
  | Some img =>
      match nth_error img h with
      | Some row => nth_error row w
      | None => None
      end
  | None => None
  end.

End WithEnv.
End History.

(* ------------------------------------------------------------------ *)
(** * Properties *)

(** ** Lists and dictionaries *)

Lemma getitem_setitem_same {V} (k : string) (v : V) (d : dict V) :
  getitem k (setitem k v d) = Some v.
Proof.
  induction d as [|[k' v'] d IH]; simpl.
  - now rewrite String.eqb_refl.
  - destruct (String.eqb k k') eqn:E; simpl; rewrite E; auto.
Qed.

Lemma getitem_setitem_other {V} (k k' : string) (v : V) (d : dict V) :
  k <> k' -> getitem k' (setitem k v d) = getitem k' d.
Proof.
  intros Hne. induction d as [|[k0 v0] d IH]; simpl.
  - destruct (String.eqb k' k) eqn:E; auto.
    apply String.eqb_eq in E. congruence.
  - destruct (String.eqb k k0) eqn:E; simpl.
    + apply String.eqb_eq in E. subst k0.
      destruct (String.eqb k' k) eqn:E'; auto.
      apply String.eqb_eq in E'. congruence.
    + now rewrite IH.
Qed.

Lemma mapi_from_map {A B C} (f : nat -> B -> C) (g : A -> B) (l : list A) :
  forall i, mapi_from f i (map g l) = mapi_from (fun k x => f k (g x)) i l.
Proof.
  induction l as [|x l IH]; intros i; simpl; [reflexivity|].
  now rewrite IH.
Qed.

Lemma mapi_from_id {A} (f : nat -> A -> A) (l : list A) :
  forall i,
    (forall k x, nth_error l k = Some x -> f (i + k)%nat x = x) ->
    mapi_from f i l = l.
Proof.
  induction l as [|x l IH]; intros i Hf; simpl; [reflexivity|].
  f_equal.
  - specialize (Hf 0%nat x eq_refl). now rewrite Nat.add_0_r in Hf.
  - apply IH. intros k y Hk.
    specialize (Hf (S k) y Hk). now rewrite Nat.add_succ_r in Hf.
Qed.

Lemma sequence_map_normal {A B} (f : A -> outcome B) (g : A -> B)
    (l : list A) :
  (forall x, In x l -> f x = Normal (g x)) ->
  sequence (map f l) = Normal (map g l).
Proof.
  induction l as [|x l IH]; intros Hf; simpl; [reflexivity|].
  rewrite (Hf x (or_introl eq_refl)), IH; [reflexivity|].
  intros y Hy. apply Hf. now right.
Qed.

Lemma map_id_in {A} (f : A -> A) (l : list A) :
  (forall x, In x l -> f x = x) -> map f l = l.
Proof.
  intros Hf. rewrite <- (map_id l) at 2. now apply map_ext_in.
Qed.

(** ** One-hot encoding and arg-max *)

Lemma Qle_bool_inject (a b : Z) :
  Qle_bool (inject_Z a) (inject_Z b) = (a <=? b).
Proof. unfold Qle_bool; simpl. now rewrite !Z.mul_1_r. Qed.

Lemma argmax_from_found (x : Z) (n : nat) :
  forall s besti i,
    argmax_from (inject_Z 1) besti i (map (bit x) (seq s n)) = besti.
Proof.
  induction n as [|n IH]; intros s besti i; cbn [seq map argmax_from];
    [reflexivity|].
  change (bit x s) with (inject_Z (if Z.of_nat s =? x then 1 else 0)).
  rewrite Qle_bool_inject.
  destruct (Z.of_nat s =? x); cbv beta iota; apply IH.
Qed.

Lemma argmax_from_search (x : Z) (n : nat) :
  forall s besti,
    Z.of_nat s <= x < Z.of_nat (s + n) ->
    argmax_from (inject_Z 0) besti (Z.of_nat s) (map (bit x) (seq s n)) = x.
Proof.
  induction n as [|n IH]; intros s besti Hx; cbn [seq map argmax_from];
    [lia|].
  change (bit x s) with (inject_Z (if Z.of_nat s =? x then 1 else 0)).
  rewrite Qle_bool_inject.
  destruct (Z.of_nat s =? x) eqn:E.
  - change (1 <=? 0) with false. cbv iota.
    apply Z.eqb_eq in E. rewrite argmax_from_found. exact E.
  - change (0 <=? 0) with true. cbv iota.
    apply Z.eqb_neq in E.
    replace (Z.of_nat s + 1) with (Z.of_nat (S s)) by lia.
    apply IH. lia.
Qed.

Lemma argmax_list_bits (x : Z) (C : nat) :
  0 <= x < Z.of_nat C ->
  argmax_list (map (bit x) (seq 0 C)) = x.
Proof.
  intros Hx. destruct C as [|C]; [simpl in Hx; lia|].
  cbn [seq map argmax_list].
  change (bit x 0) with (inject_Z (if 0 =? x then 1 else 0)).
  destruct (0 =? x) eqn:E.
  - apply Z.eqb_eq in E. rewrite argmax_from_found. exact E.
  - apply Z.eqb_neq in E.
    apply (argmax_from_search x C 1%nat 0). lia.
Qed.

Lemma nth_indicator (C c : nat) (x : Z) :
  (c < C)%nat ->
  nth c (indicator C x) 0 = if Z.of_nat c =? x then 1 else 0.
Proof.
  intros Hc. unfold indicator. apply nth_error_nth.
  apply (map_nth_error (fun c => if Z.of_nat c =? x then 1 else 0) c).
  rewrite (nth_error_nth' _ 0%nat) by now rewrite length_seq.
  now rewrite seq_nth.
Qed.

(** The planes of one encoded image, after [permute] and [float]. *)
Lemma planes_of_image (C : nat) (img : list (list Z)) :
  map3 inject_Z
       (map (fun c => map (map (fun px => nth c px 0))
                          (map (map (indicator C)) img))
            (seq 0 C))
  = map (fun c => map (map (fun v => bit v c)) img) (seq 0 C).
Proof.
  unfold map3. rewrite map_map. apply map_ext_in. intros c Hc.
  apply in_seq in Hc.
  rewrite !map_map. apply map_ext. intros row.
  rewrite !map_map. apply map_ext. intros v.
  unfold bit. rewrite nth_indicator by lia. reflexivity.
Qed.

Lemma argmax_planes_image (C : nat) (img : list (list Z)) :
  (0 < C)%nat ->
  (forall row v, In row img -> In v row -> 0 <= v < Z.of_nat C) ->
  argmax_planes (map (fun c => map (map (fun v => bit v c)) img) (seq 0 C))
  = Normal img.
Proof.
  intros HC Hrange. destruct C as [|C]; [lia|].
  unfold argmax_planes.
  change (seq 0 (S C)) with (0%nat :: seq 1 C) at 1.
  cbn [map]. f_equal.
  change (map (fun v => bit v 0) :: map _ (seq 1 C))
    with (map (fun c => map (map (fun v => bit v c)) img) (seq 0 (S C))).
  unfold mapi. rewrite mapi_from_map.
  apply mapi_from_id. intros h row Hrow. simpl Nat.add.
  rewrite mapi_from_map. apply mapi_from_id. intros w v Hv. simpl Nat.add.
  rewrite map_map.
  rewrite (map_ext_in _ (bit v)).
  - apply argmax_list_bits. eapply Hrange; eauto using nth_error_In.
  - intros c _.
    apply nth_error_nth.
    erewrite nth_error_nth.
    2:{ apply map_nth_error. exact Hrow. }
    apply (map_nth_error (fun v => bit v c)). exact Hv.
Qed.

Lemma existsb_negative_false (l : list Z) :
  (forall v, In v l -> 0 <= v) -> existsb (fun v => v <? 0) l = false.
Proof.
  intros H. destruct (existsb _ l) eqn:E; [|reflexivity].
  apply existsb_exists in E. destruct E as [v [Hin Hv]].
  apply Z.ltb_lt in Hv. specialize (H v Hin). lia.
Qed.

Lemma max_entry_lt (l : list Z) (n : Z) :
  0 < n -> (forall v, In v l -> v < n) -> max_entry l < n.
Proof.
  intros Hn. induction l as [|x l IH]; intros H; simpl; [exact Hn|].
  apply Z.max_lub_lt.
  - apply H. now left.
  - apply IH. intros v Hv. apply H. now right.
Qed.

Lemma one_hot_in_range (label : tensor3 Z) (n : Z) :
  0 < n ->
  (forall v, In v (entries3 label) -> 0 <= v < n) ->
  one_hot label n
  = Normal (Z.to_nat n, map3 (indicator (Z.to_nat n)) label).
Proof.
  intros Hn Hrange. unfold one_hot.
  destruct (entries3 label) as [|v0 vals] eqn:E.
  - destruct (n <=? 0) eqn:L; [apply Z.leb_le in L; lia | reflexivity].
  - rewrite existsb_negative_false by (intros v Hv; apply Hrange in Hv; lia).
    destruct (n =? -1) eqn:N; [apply Z.eqb_eq in N; lia|].
    destruct (n <=? max_entry (v0 :: vals)) eqn:L; [|reflexivity].
    apply Z.leb_le in L.
    assert (max_entry (v0 :: vals) < n)
      by (apply max_entry_lt; [exact Hn | intros v Hv; apply Hrange in Hv; lia]).
    lia.
Qed.

Lemma permute_shape (B H W C : nat) (label : tensor3 Z) :
  has_shape3 B H W label ->
  has_shape4 B C H W (permute_0312 0 C (map3 (indicator C) label)).
Proof.
  unfold has_shape4, has_shape3, has_shape2, permute_0312, map3.
  intros [HB HF]. rewrite Forall_forall in HF. split.
  - now rewrite !length_map.
  - rewrite Forall_forall. intros planes Hp.
    apply in_map_iff in Hp. destruct Hp as [enc [<- Henc]].
    apply in_map_iff in Henc. destruct Henc as [img [<- Himg]].
    destruct (HF img Himg) as [HH HW]. rewrite Forall_forall in HW.
    split; [now rewrite length_map, length_seq|].
    rewrite Forall_forall. intros plane Hplane.
    apply in_map_iff in Hplane. destruct Hplane as [c [<- _]].
    split; [now rewrite !length_map|].
    rewrite Forall_forall. intros row Hrow.
    apply in_map_iff in Hrow. destruct Hrow as [r1 [<- Hr1]].
    apply in_map_iff in Hr1. destruct Hr1 as [r0 [<- Hr0]].
    rewrite !length_map. now apply HW.
Qed.

Lemma int32_small (v : Z) : 0 <= v < 2 ^ 31 -> int32 v = v.
Proof.
  intros Hv. unfold int32.
  change (2 ^ 31) with 2147483648 in *. change (2 ^ 32) with 4294967296.
  rewrite Z.mod_small; lia.
Qed.

Lemma in_entries3 {A} (t : tensor3 A) (img : list (list A)) (row : list A)
    (v : A) :
  In img t -> In row img -> In v row -> In v (entries3 t).
Proof.
  intros Himg Hrow Hv. unfold entries3.
  apply in_concat. exists row. split; [|exact Hv].
  apply in_concat. exists img. now split.
Qed.

Section Encoding.
Context {env : TorchEnv}.

(** C9.  For a label tensor of shape (B, H, W) whose entries are class
    indices in [0, num_classes), [one_hot_encoding] returns a tensor of shape
    (B, num_classes, H, W), and the arg-max of that tensor (as floats) along
    the class dimension is the label tensor again; the cast [.int()] of
    line 424 keeps it as long as the class count fits 32 bits. *)
Theorem one_hot_argmax_round_trip (self : UNetTrainer.t) (B H W : nat)
    (label : tensor3 Z) :
  0 < UNetTrainer.num_classes self ->
  has_shape3 B H W label ->
  (forall v, In v (entries3 label) -> 0 <= v < UNetTrainer.num_classes self) ->
  exists encoded,
    UNetTrainer.one_hot_encoding self label = Normal encoded
    /\ has_shape4 B (Z.to_nat (UNetTrainer.num_classes self)) H W encoded
    /\ argmax_dim1 (float encoded) = Normal label
    /\ (UNetTrainer.num_classes self <= 2 ^ 31 ->
        UNetTrainer.argmax_int (float encoded) = Normal label).
Proof.
  intros Hpos Hshape Hrange.
  set (n := UNetTrainer.num_classes self) in *.
  set (C := Z.to_nat n).
  exists (permute_0312 0 C (map3 (indicator C) label)).
  assert (Hargmax :
            argmax_dim1 (float (permute_0312 0 C (map3 (indicator C) label)))
            = Normal label).
  { unfold argmax_dim1, float, map4, permute_0312.
    unfold map3 at 2. rewrite !map_map.
    rewrite (sequence_map_normal _ (fun img => img)); [now rewrite map_id|].
    intros img Himg. rewrite planes_of_image.
    apply argmax_planes_image; [lia|].
    intros row v Hrow Hv.
    specialize (Hrange v (in_entries3 label img row v Himg Hrow Hv)). lia. }
  split; [|split; [|split]].
  - unfold UNetTrainer.one_hot_encoding, long. fold n.
    now rewrite one_hot_in_range.
  - now apply permute_shape.
  - exact Hargmax.
  - intros Hle. unfold UNetTrainer.argmax_int. rewrite Hargmax. f_equal.
    unfold int, map3.
    apply map_id_in. intros img Himg.
    apply map_id_in. intros row Hrow.
    apply map_id_in. intros v Hv.
    apply int32_small.
    specialize (Hrange v (in_entries3 label img row v Himg Hrow Hv)). lia.
Qed.

End Encoding.


(* ------------------------------------------------------------------ *)
(** ** The metrics engine *)

Section Engine.
Context {env : TorchEnv}.
Import UNetMetrics.

Lemma layout_init (n : Z) : layout (UNetMetrics.__init__ n) 0 0.
Proof. unfold UNetMetrics.__init__. simpl. now constructor. Qed.

Ltac step_metric :=
  match goal with
  | |- context [metric_call ?m ?p ?t] =>
      let r := fresh "r" in
      let m' := fresh "m'" in
      destruct (metric_call m p t) as [[r|r] m']; cbn
  end.

(** One call on a state of the expected shape: the series of the active
    stage grow by one when an [update] returns, and nothing else moves. *)
Lemma layout_do_call (c : call) (self : t) (nt nv : nat) :
  layout self nt nv ->
  layout (snd (do_call c self))
    (nt + (if is_update c && String.eqb (stage_of self) "train"
              && is_normal (fst (do_call c self)) then 1 else 0))
    (nv + (if is_update c && String.eqb (stage_of self) "val"
              && is_normal (fst (do_call c self)) then 1 else 0)).
Proof.
  intros L. destruct L.
  destruct c as [| |step loss p t]; cbn.
  - rewrite !Nat.add_0_r. now constructor.
  - rewrite !Nat.add_0_r. now constructor.
  - unfold update, bind, gets, call_metric, append_plot, stage_of.
    destruct mode; cbn.
    + step_metric; [step_metric|];
        rewrite ?Nat.add_0_r; constructor;
        rewrite ?length_app; cbn; lia.
    + step_metric; [step_metric|];
        rewrite ?Nat.add_0_r; constructor;
        rewrite ?length_app; cbn; lia.
Qed.

Lemma layout_exec (cs : list call) :
  forall self nt nv,
    layout self nt nv ->
    layout (exec cs self)
           (nt + updates_done "train" cs self)
           (nv + updates_done "val" cs self).
Proof.
  induction cs as [|c cs IH]; intros self nt nv L; cbn [exec updates_done].
  - rewrite !Nat.add_0_r. exact L.
  - rewrite !Nat.add_assoc. apply IH. now apply layout_do_call.
Qed.

Lemma layout_reachable (n : Z) (cs : list call) :
  layout (exec cs (UNetMetrics.__init__ n))
         (updates_done "train" cs (UNetMetrics.__init__ n))
         (updates_done "val" cs (UNetMetrics.__init__ n)).
Proof. apply (layout_exec cs _ 0%nat 0%nat). apply layout_init. Qed.

Lemma layout_series_lengths (self : t) (nt nv : nat) :
  layout self nt nv ->
  Forall (fun name => length (series "train" name self) = nt) series_names
  /\ Forall (fun name => length (series "val" name self) = nv) series_names.
Proof.
  intros L. destruct L. unfold series_names.
  split; repeat constructor; cbn; assumption.
Qed.

(** C10.  In every state the engine can reach, the four series of a stage
    have the same length: the number of [update] calls that were made while
    that stage was active and that returned.  An [update] that returns
    appends exactly one element to each of the four series of the active
    stage (the step, the loss and the two metric values) and leaves the
    series of the other stage as they were; an [update] that raises (a
    metric refused its arguments) has appended nothing. *)
Theorem update_appends_to_active_series (n : Z) (cs : list call) :
  let self := exec cs (UNetMetrics.__init__ n) in
  Forall (fun stage =>
            Forall (fun name =>
                      length (series stage name self)
                      = updates_done stage cs (UNetMetrics.__init__ n))
                   series_names)
         stages
  /\ forall step loss preds targets,
       let r := update step loss preds targets self in
       (fst r = Normal tt ->
        series (stage_of self) "step" (snd r)
        = series (stage_of self) "step" self ++ [CInt step]
        /\ series (stage_of self) "loss" (snd r)
           = series (stage_of self) "loss" self ++ [CFloat loss]
        /\ (exists acc, series (stage_of self) "acc" (snd r)
                        = series (stage_of self) "acc" self ++ [CFloat acc])
        /\ (exists dice, series (stage_of self) "dice" (snd r)
                         = series (stage_of self) "dice" self ++ [CFloat dice])
        /\ forall name, series (other_stage self) name (snd r)
                        = series (other_stage self) name self)
       /\ (fst r <> Normal tt -> plots (snd r) = plots self).
Proof.
  intros self. pose proof (layout_reachable n cs) as L. fold self in L.
  split.
  - destruct (layout_series_lengths _ _ _ L) as [Ht Hv].
    unfold stages.
    constructor; [exact Ht | constructor; [exact Hv | constructor]].
  - clearbody self. destruct L.
    intros step loss p t r. subst r.
    unfold update, bind, gets, call_metric, append_plot, stage_of, other_stage.
    destruct mode; cbn.
    + step_metric; [step_metric|];
        (split; intros Hr;
         [try discriminate Hr; repeat split; eauto
         | try reflexivity; exfalso; apply Hr; reflexivity]).
    + step_metric; [step_metric|];
        (split; intros Hr;
         [try discriminate Hr; repeat split; eauto
         | try reflexivity; exfalso; apply Hr; reflexivity]).
Qed.

(** C5, what the code computes.  In every reachable state both metric
    objects of each stage are registered, yet [compute] returns for each
    stage a dictionary with the single key [dice]: the value of [acc] was
    overwritten by the assignment of the next inner iteration. *)
Theorem compute_keeps_last_metric_only (n : Z) (cs : list call) :
  let self := exec cs (UNetMetrics.__init__ n) in
  exists a1 d1 a2 d2,
    metrics self = [("train", [("acc", a1); ("dice", d1)]);
                    ("val", [("acc", a2); ("dice", d2)])]
    /\ compute self = [("train", [("dice", metric_compute d1)]);
                       ("val", [("dice", metric_compute d2)])]
    /\ Forall (fun stage =>
                 exists m, getitem stage (compute self) = Some m
                           /\ getitem "acc" m = None)
              stages.
Proof.
  intros self. pose proof (layout_reachable n cs) as L. fold self in L.
  clearbody self. destruct L. exists a1, d1, a2, d2. cbn.
  split; [reflexivity|]. split; [reflexivity|].
  unfold stages. repeat constructor; cbn; eauto.
Qed.

(** C7, what the code does.  In every reachable state [_to_dataframe]
    raises at the first series it meets: [alt_names] is not bound in the
    module, and were it bound to the dictionary of [plot_graphs] (or to any
    other), the key [step] or the stale key [batch] is missing.  No table
    is produced. *)
Theorem to_dataframe_always_raises (g : Globals) (n : Z) (cs : list call) :
  exists e,
    UNetMetrics._to_dataframe g (exec cs (UNetMetrics.__init__ n)) = Raise e
    /\ match Namespace.alt_names g with
       | None => e = NameError "alt_names"
       | Some _ => In e [KeyError "train"; KeyError "step"; KeyError "batch"]
       end.
Proof.
  pose proof (layout_reachable n cs) as L.
  destruct L. unfold _to_dataframe. cbn [plots for_each].
  unfold dataframe_rows_of at 1. cbn [String.eqb Ascii.eqb Bool.eqb negb].
  unfold lookup_name.
  destruct (Namespace.alt_names g) as [names|]; [|eauto].
  destruct (subscript names "train") as [l1'|e1'] eqn:E1.
  - destruct (subscript names "step") as [l2'|e2'] eqn:E2; cbn.
    + eexists; split; [reflexivity|]. cbn. auto.
    + unfold subscript in E2. destruct (getitem "step" names); inversion E2.
      eexists; split; [reflexivity|]. cbn. auto.
  - unfold subscript in E1. destruct (getitem "train" names); inversion E1.
    eexists; split; [reflexivity|]. cbn. auto.
Qed.

Lemma keeps_bind {A B} (k : string) (m : M t A) (f : A -> M t B) :
  keeps k m -> (forall a, keeps k (f a)) -> keeps k (bind m f).
Proof.
  intros Hm Hf self. unfold bind.
  specialize (Hm self). cbn in Hm.
  destruct (m self) as [[a|e] self1]; cbn in *; [|exact Hm].
  specialize (Hf a self1). cbn in Hf.
  destruct Hm as [M1 [M2 M3]], Hf as [F1 [F2 F3]].
  repeat split; congruence.
Qed.

Lemma keeps_call_metric (k stage name : string) (p q : tensor3 Z) :
  stage <> k -> keeps k (call_metric stage name p q).
Proof.
  intros Hne self. unfold call_metric.
  destruct (subscript (metrics self) stage) as [m|e]; cbn; [|auto].
  destruct (subscript m name) as [obj|e]; cbn; [|auto].
  destruct (metric_call obj p q) as [r obj']; cbn.
  repeat split. now apply getitem_setitem_other.
Qed.

Lemma keeps_append_plot (k stage name : string) (c : cell) :
  stage <> k -> keeps k (append_plot stage name c).
Proof.
  intros Hne self. unfold append_plot.
  destruct (subscript (plots self) stage) as [pl|e]; cbn; [|auto].
  destruct (subscript pl name) as [l|e]; cbn; [|auto].
  repeat split. now apply getitem_setitem_other.
Qed.

(** An [update] touches only what is stored under the active stage. *)
Lemma update_keeps_other (k : string) (step : Z) (loss : Q)
    (p q : tensor3 Z) (self : t) :
  stage_of self <> k ->
  let self' := snd (update step loss p q self) in
  _train self' = _train self
  /\ getitem k (metrics self') = getitem k (metrics self)
  /\ getitem k (plots self') = getitem k (plots self).
Proof.
  intros Hne.
  change (update step loss p q self)
    with ((acc <- call_metric (stage_of self) "acc" p q ;;
           dice <- call_metric (stage_of self) "dice" p q ;;
           append_plot (stage_of self) "step" (CInt step) ;;;
           append_plot (stage_of self) "loss" (CFloat loss) ;;;
           append_plot (stage_of self) "acc" (CFloat acc) ;;;
           append_plot (stage_of self) "dice" (CFloat dice)) self).
  apply (keeps_bind k); [now apply keeps_call_metric|]. intros acc.
  apply keeps_bind; [now apply keeps_call_metric|]. intros dice.
  repeat (apply keeps_bind; [now apply keeps_append_plot|]; intros _).
  now apply keeps_append_plot.
Qed.

Lemma exec_updates_keep_other (k : string)
    (args : list (Z * Q * tensor3 Z * tensor3 Z)) :
  forall self,
    stage_of self <> k ->
    let self' := exec (as_updates args) self in
    _train self' = _train self
    /\ getitem k (metrics self') = getitem k (metrics self)
    /\ getitem k (plots self') = getitem k (plots self).
Proof.
  induction args as [|[[[step loss] p] q] args IH]; intros self Hne;
    cbn [as_updates map exec do_call]; [auto|].
  destruct (update_keeps_other k step loss p q self Hne) as [U1 [U2 U3]].
  fold (as_updates args).
  assert (Hne' : stage_of (snd (update step loss p q self)) <> k)
    by (unfold stage_of in *; now rewrite U1).
  destruct (IH _ Hne') as [I1 [I2 I3]].
  repeat split; congruence.
Qed.

Lemma compute_of_layout (k : string) (s s' : t) (nt nv nt' nv' : nat) :
  layout s nt nv -> layout s' nt' nv' ->
  getitem k (metrics s') = getitem k (metrics s) ->
  getitem k (compute s') = getitem k (compute s).
Proof.
  intros L L'. destruct L, L'. cbn.
  destruct (String.eqb k "train"); [intros E; now inversion E|].
  destruct (String.eqb k "val"); [intros E; now inversion E|].
  reflexivity.
Qed.

(** In every state of the engine's layout [compute()] raises the first
    exception a [metric.compute()] raises, in the order of the loops, and
    returns the dictionary of [compute] when there is none. *)
Lemma compute_call_outcome (s : t) (nt nv : nat) :
  layout s nt nv ->
  compute_call s
  = match first_error (accumulators s) with
    | Some e => Raise e
    | None => Normal (compute s)
    end.
Proof.
  intros L. destruct L.
  unfold compute_call, metric_compute_call, accumulators. cbn.
  destruct (metric_compute_error a1), (metric_compute_error d1),
    (metric_compute_error a2), (metric_compute_error d2); reflexivity.
Qed.

Lemma compute_call_returns (s : t) (nt nv : nat) (r : dict (dict Q)) :
  layout s nt nv -> compute_call s = Normal r -> r = compute s.
Proof.
  intros L. destruct L. unfold compute_call, metric_compute_call. cbn.
  destruct (metric_compute_error a1), (metric_compute_error d1),
    (metric_compute_error a2), (metric_compute_error d2);
    cbn; intros R; try discriminate R.
  now injection R as <-.
Qed.

(** C6, as the code has it.  Whatever was recorded before, [update] calls
    made under Validation (after [eval]) leave the Training accumulators and
    the Training series as they were; and whenever [compute()] returns both
    before and after these updates, its Training entry is the same.  The
    same holds with the two phases exchanged.  ([compute()] calls
    [metric.compute()] on the accumulators of both phases, so it returns
    only where none of the four raises.) *)
Theorem phases_do_not_interfere (n : Z) (before : list call)
    (args : list (Z * Q * tensor3 Z * tensor3 Z)) :
  let s1 := exec before (UNetMetrics.__init__ n) in
  (let s2 := exec (as_updates args) (snd (eval s1)) in
   getitem "train" (metrics s2) = getitem "train" (metrics s1)
   /\ getitem "train" (plots s2) = getitem "train" (plots s1)
   /\ forall r1 r2,
        compute_call s1 = Normal r1 -> compute_call s2 = Normal r2 ->
        getitem "train" r2 = getitem "train" r1)
  /\
  (let s2 := exec (as_updates args) (snd (train s1)) in
   getitem "val" (metrics s2) = getitem "val" (metrics s1)
   /\ getitem "val" (plots s2) = getitem "val" (plots s1)
   /\ forall r1 r2,
        compute_call s1 = Normal r1 -> compute_call s2 = Normal r2 ->
        getitem "val" r2 = getitem "val" r1).
Proof.
  intros s1.
  pose proof (layout_reachable n before) as L1. fold s1 in L1.
  split; intros s2.
  - pose proof (layout_exec (as_updates args) _ _ _
                  (layout_do_call CallEval _ _ _ L1)) as L2.
    destruct (exec_updates_keep_other "train" args (snd (eval s1)))
      as [_ [K2 K3]]; [cbn; discriminate|].
    cbn in K2, K3. fold s2 in K2, K3.
    split; [exact K2|]. split; [exact K3|].
    intros r1 r2 H1 H2.
    rewrite (compute_call_returns _ _ _ _ L1 H1).
    cbn in L2. fold s2 in L2.
    rewrite (compute_call_returns _ _ _ _ L2 H2).
    eapply compute_of_layout; [exact L1|exact L2|exact K2].
  - pose proof (layout_exec (as_updates args) _ _ _
                  (layout_do_call CallTrain _ _ _ L1)) as L2.
    destruct (exec_updates_keep_other "val" args (snd (train s1)))
      as [_ [K2 K3]]; [cbn; discriminate|].
    cbn in K2, K3. fold s2 in K2, K3.
    split; [exact K2|]. split; [exact K3|].
    intros r1 r2 H1 H2.
    rewrite (compute_call_returns _ _ _ _ L1 H1).
    cbn in L2. fold s2 in L2.
    rewrite (compute_call_returns _ _ _ _ L2 H2).
    eapply compute_of_layout; [exact L1|exact L2|exact K2].
Qed.

End Engine.


(* ------------------------------------------------------------------ *)
(** ** The trainer: checkpoint loading and the freeze policy *)

(** Case analysis on a scrutinee that is not itself a case analysis. *)
Ltac step_match :=
  match goal with
  | |- context [match ?x with _ => _ end] =>
      lazymatch x with
      | context [match _ with _ => _ end] => fail
      | _ => destruct x
      end
  end.

Section Checkpoint.
Context {env : TorchEnv}.
Import UNetTrainer.

Lemma freeze_policy_block (freeze : bool) (self : t) :
  fst (apply_freeze_policy freeze self) = Normal tt
  /\ named_parameters (model (snd (apply_freeze_policy freeze self)))
     = map (fun np =>
              (fst np,
               mkParam (value (snd np))
                       (if freeze then startswith (fst np) "final_conv"
                        else true)))
           (named_parameters (model self))
  /\ Forall (fun np =>
               requires_grad (snd np)
               = if freeze then startswith (fst np) "final_conv" else true)
            (named_parameters (model (snd (apply_freeze_policy freeze self)))).
Proof.
  assert (E : named_parameters (model (snd (apply_freeze_policy freeze self)))
              = map (fun np =>
                       (fst np,
                        mkParam (value (snd np))
                                (if freeze then startswith (fst np) "final_conv"
                                 else true)))
                    (named_parameters (model self))).
  { unfold apply_freeze_policy, bind, emit, modify. cbn.
    destruct freeze; cbn; apply map_ext; intros [name param]; cbn;
      unfold startswith, set_requires_grad;
      [destruct (String.prefix "final_conv" name)|]; reflexivity. }
  split; [reflexivity|]. split; [exact E|].
  rewrite E. apply Forall_forall. intros np Hin.
  apply in_map_iff in Hin. destruct Hin as [[name param] [<- _]].
  reflexivity.
Qed.

(** C3.  The freeze block of [load_checkpoint] (lines 302-312) always
    completes, keeps the names and values of the parameters, and sets the
    flags: with [freeze = true] a parameter is trainable exactly when its
    name starts with [final_conv]; with [freeze = false] every parameter is
    trainable. *)
Theorem freeze_policy_trainable_set (freeze : bool) (self : t) :
  let r := apply_freeze_policy freeze self in
  fst r = Normal tt
  /\ named_parameters (model (snd r))
     = map (fun np =>
              (fst np,
               mkParam (value (snd np))
                       (if freeze then startswith (fst np) "final_conv"
                        else true)))
           (named_parameters (model self))
  /\ Forall (fun np =>
               requires_grad (snd np)
               = if freeze then startswith (fst np) "final_conv" else true)
            (named_parameters (model (snd r))).
Proof. intros r. exact (freeze_policy_block freeze self). Qed.

Lemma new_events_app (s s' : t) (l : list event) :
  events s' = events s ++ l -> new_events s s' = l.
Proof.
  intros E. unfold new_events. rewrite E.
  rewrite skipn_app, skipn_all, Nat.sub_diag. reflexivity.
Qed.


(** What [load_checkpoint] can add to the log, whatever its outcome: a
    prefix of load, model state, optimizer state, freeze policy; and it
    never constructs or re-binds the optimizer. *)
Lemma load_checkpoint_log (g : Globals) (self : t) :
  let r := load_checkpoint g self in
  exists l,
    events (snd r) = events self ++ l
    /\ existsb is_bind l = false
    /\ param_names (optimizer (snd r)) = param_names (optimizer self)
    /\ (fst r = Normal tt ->
        exists file f,
          l = [EvTorchLoad file; EvLoadModelState; EvLoadOptimizerState;
               EvFreezePolicy f]).
Proof.
  intros r. subst r.
  unfold load_checkpoint, bind, attribute, lift, emit, modify, gets, raise,
    apply_freeze_policy, lookup_name.
  cbn.
  repeat (step_match; cbn);
    first [ exists []; rewrite app_nil_r;
            repeat split; try reflexivity; intros X; discriminate X
          | eexists; rewrite <- ?app_assoc; cbn [app];
            split; [reflexivity|]; cbn;
            repeat split; try reflexivity;
            intros X; first [discriminate X | eauto] ].
Qed.

(** When [load_checkpoint] returns, the flags are those of the freeze
    policy for the value bound to the bare name [freeze]. *)
Lemma load_checkpoint_applies_policy (g : Globals) (self : t) :
  fst (load_checkpoint g self) = Normal tt ->
  exists f,
    Namespace.freeze_name g = Some f
    /\ Forall (fun np =>
                 requires_grad (snd np)
                 = if f then startswith (fst np) "final_conv" else true)
              (named_parameters (model (snd (load_checkpoint g self)))).
Proof.
  unfold load_checkpoint, bind, attribute, lift, emit, modify, gets, raise,
    lookup_name.
  cbn -[apply_freeze_policy].
  repeat (step_match; cbn -[apply_freeze_policy];
          try (intros X; discriminate X)).
  intros _. eexists. split; [reflexivity|].
  match goal with
  | |- context [apply_freeze_policy ?f ?s] =>
      exact (proj2 (proj2 (freeze_policy_block f s)))
  end.
Qed.

(** In the script as written the names [checkpoint_path] and [freeze] are
    bound neither in the object nor in the module: [load_checkpoint] cannot
    return. *)
Lemma load_checkpoint_never_returns_in_script (flags : Flags) (self : t) :
  is_normal (fst (load_checkpoint (Namespace.script_globals flags) self))
  = false.
Proof.
  unfold load_checkpoint, bind, attribute, lift, raise, lookup_name. cbn.
  repeat (step_match; cbn; try reflexivity).
Qed.

(** C4, as the code orders the steps.  [__init__] constructs the model and
    binds the optimizer to the trainable parameters of the fresh network
    first; whatever follows in its log holds no further binding.  A
    [load_checkpoint] that returns has read the file, loaded the model
    state, loaded the optimizer state and applied the freeze policy, in this
    order, and the optimizer is still bound to the parameters it was
    constructed on. *)
Theorem initialization_order (g : Globals)
    (image_size num_classes batch_size num_epochs : Z) (learning_rate : Q)
    (checkpoint_dir : string) (freeze : bool) (num_workers : Z)
    (pin_memory : bool) :
  let r := UNetTrainer.__init__ g image_size num_classes batch_size num_epochs
             learning_rate checkpoint_dir freeze num_workers pin_memory in
  let bound :=
    map fst (filter (fun np => requires_grad (snd np)) (UNET 3 num_classes)) in
  (exists rest,
      events (snd r)
      = EvModelConstruct 3 num_classes :: EvOptimizerBind bound :: rest
      /\ existsb is_bind rest = false)
  /\ param_names (optimizer (snd r)) = bound
  /\ forall self,
       fst (load_checkpoint g self) = Normal tt ->
       (exists file f,
           new_events self (snd (load_checkpoint g self))
           = [EvTorchLoad file; EvLoadModelState; EvLoadOptimizerState;
              EvFreezePolicy f])
       /\ param_names (optimizer (snd (load_checkpoint g self)))
          = param_names (optimizer self).
Proof.
  intros r bound. split; [|split].
  - subst r. unfold UNetTrainer.__init__.
    set (self0 := mk _ _ _ _ _ _ _ _ _ _ _ _ _ _).
    destruct (negb (String.eqb checkpoint_dir "")).
    + unfold bind at 1.
      destruct (load_checkpoint_log g self0) as [l [E [B _]]].
      destruct (load_checkpoint g self0) as [[u|e] s1]; cbn in E.
      * exists (l ++ [EvCreateDirectory CHECKPOINT_DIR]). split.
        -- unfold bind, emit, modify, lift.
           destruct (1 <? cuda_device_count), (create_directory CHECKPOINT_DIR),
             (UNetMetrics.new num_classes); cbn; now rewrite E.
        -- rewrite existsb_app, B. reflexivity.
      * exists l. cbn. now rewrite E.
    + exists [EvCreateDirectory CHECKPOINT_DIR]. split; [|reflexivity].
      unfold bind, ret, emit, modify, lift.
      destruct (1 <? cuda_device_count), (create_directory CHECKPOINT_DIR),
        (UNetMetrics.new num_classes); reflexivity.
  - subst r. unfold UNetTrainer.__init__.
    set (self0 := mk _ _ _ _ _ _ _ _ _ _ _ _ _ _).
    destruct (negb (String.eqb checkpoint_dir "")).
    + unfold bind at 1.
      destruct (load_checkpoint_log g self0) as [l [_ [_ [P _]]]].
      destruct (load_checkpoint g self0) as [[u|e] s1]; cbn in P.
      * unfold bind, emit, modify, lift.
        destruct (1 <? cuda_device_count), (create_directory CHECKPOINT_DIR),
          (UNetMetrics.new num_classes); cbn; exact P.
      * exact P.
    + unfold bind, ret, emit, modify, lift.
      destruct (1 <? cuda_device_count), (create_directory CHECKPOINT_DIR),
        (UNetMetrics.new num_classes); reflexivity.
  - intros self Hok.
    destruct (load_checkpoint_log g self) as [l [E [_ [P S]]]].
    split; [|exact P].
    destruct (S Hok) as [file [f ->]]. exists file, f.
    now apply new_events_app.
Qed.

End Checkpoint.

(* ------------------------------------------------------------------ *)
(** ** The trainer: validation passes and the epoch loop *)

Section Validation.
Context {env : TorchEnv}.
Import UNetTrainer.

Section Preserved.
Context {X : Type} (f : t -> X).
Hypothesis f_set_metrics : forall a s, f (set_metrics a s) = f s.

Lemma preserves_ret {A} (a : A) : preserves f (ret a).
Proof. intros s. reflexivity. Qed.

Lemma preserves_lift {A} (r : outcome A) : preserves f (lift r).
Proof. intros s. reflexivity. Qed.

Lemma preserves_gets {A} (h : t -> A) : preserves f (gets h).
Proof. intros s. reflexivity. Qed.

Lemma preserves_bind {A B} (m : M t A) (k : A -> M t B) :
  preserves f m -> (forall a, preserves f (k a)) -> preserves f (bind m k).
Proof.
  intros Hm Hk s. unfold bind. specialize (Hm s).
  destruct (m s) as [[a|e] s1]; cbn in *; [|exact Hm].
  rewrite (Hk a s1). exact Hm.
Qed.

Lemma preserves_call_items (stage : string) (items : list (string * Metric))
    (p q : tensor3 Z) :
  preserves f (call_items stage items p q).
Proof.
  induction items as [|[name metric] items IH]; cbn [call_items].
  - apply preserves_ret.
  - apply preserves_bind; [|intros _; exact IH].
    intros s. destruct (metric_call metric p q) as [r metric'].
    destruct (metrics s) as [[m|d]|]; cbn;
      [destruct r; reflexivity | | destruct r; reflexivity].
    destruct (getitem stage d); destruct r; cbn;
      rewrite ?f_set_metrics; reflexivity.
Qed.

Lemma preserves_call_metrics (stage : string) (p q : tensor3 Z) :
  preserves f (call_metrics stage p q).
Proof.
  unfold call_metrics. apply preserves_bind.
  - intros s. unfold attribute. destruct (metrics s); reflexivity.
  - intros [m|d]; [intros s; reflexivity|].
    apply preserves_bind; [apply preserves_lift|].
    intros m. apply preserves_call_items.
Qed.

Ltac preserved :=
  repeat first
    [ apply preserves_lift
    | apply preserves_gets
    | apply preserves_ret
    | apply preserves_call_metrics
    | apply preserves_bind; [|intros ?] ].

Lemma preserves_validate_one_batch_block (loader : DataLoader Data) :
  preserves f (validate_one_batch_block loader).
Proof.
  unfold validate_one_batch_block.
  apply preserves_bind; [apply preserves_lift|]. intros [data targets].
  preserved.
Qed.

Lemma preserves_validate_fn_loop (g : Globals) (loader : DataLoader Data) :
  forall running_loss running_accuracy,
    preserves f (validate_fn_loop g loader running_loss running_accuracy).
Proof.
  induction loader as [|[data targets] rest IH]; intros rl ra;
    cbn [validate_fn_loop].
  - apply preserves_ret.
  - preserved. apply IH.
Qed.

End Preserved.

(** C2, as the code behaves.  After a validation pass (on one batch or on
    the whole loader) the mode flag of the model is Training when the pass
    returned its summary, and is still evaluation mode when the pass raised:
    [self.model.train()] is the last statement of the success path and
    nothing restores the flag on the way out of an exception. *)
Theorem validation_mode_after (g : Globals) (loader : DataLoader Data)
    (self self' : t) (r : outcome summary) :
  validate_one_batch loader self = (r, self')
  \/ validate_fn g loader self = (r, self') ->
  training (model self') = is_normal r.
Proof.
  intros [H|H].
  - unfold validate_one_batch, bind at 1, model_eval, modify in H.
    cbn beta iota in H. unfold bind at 1, no_grad in H.
    set (s0 := set_model _ self) in H.
    pose proof (preserves_validate_one_batch_block mode (fun _ _ => eq_refl)
                  loader s0) as P.
    destruct (validate_one_batch_block loader s0) as [[[loss acc]|e] s1];
      cbn in H, P; inversion H; subst; [reflexivity|exact P].
  - unfold validate_fn, bind at 1, model_eval, modify in H.
    cbn beta iota in H. unfold bind at 1, no_grad in H.
    set (s0 := set_model _ self) in H.
    pose proof (preserves_validate_fn_loop mode (fun _ _ => eq_refl)
                  g loader 0%Q 0%Q s0) as P.
    destruct (validate_fn_loop g loader 0%Q 0%Q s0) as [[[rl ra]|e] s1];
      cbn in H, P; [|inversion H; subst; exact P].
    unfold bind, lift, model_train, modify, ret in H.
    destruct (float_div rl (length loader));
      [destruct (float_div ra (length loader))|];
      inversion H; subst; first [reflexivity | exact P].
Qed.

(** With the module namespace as the file leaves it, [validate_fn] never
    returns: an empty loader ends in a division by zero, and the first
    batch ends, at the latest, at the unbound name [accuracy]. *)
Lemma validate_fn_never_returns (flags : Flags) (loader : DataLoader Data)
    (self : t) :
  is_normal (fst (validate_fn (Namespace.script_globals flags) loader self))
  = false.
Proof.
  unfold validate_fn, bind at 1, model_eval, modify. cbn beta iota.
  unfold bind at 1, no_grad.
  destruct loader as [|[data targets] rest]; [reflexivity|].
  cbn [validate_fn_loop].
  unfold bind, lift, gets, lookup_name. cbn.
  repeat (step_match; cbn; try reflexivity).
Qed.

Lemma events_validate_fn (g : Globals) (loader : DataLoader Data) :
  preserves events (validate_fn g loader).
Proof.
  unfold validate_fn.
  apply preserves_bind; [intros s; reflexivity|]. intros _.
  apply preserves_bind;
    [apply preserves_validate_fn_loop; reflexivity|].
  intros [rl ra].
  repeat (apply preserves_bind; [apply preserves_lift|]; intros ?).
  apply preserves_bind; [intros s; reflexivity|]. intros _.
  apply preserves_ret.
Qed.

(** The loop leaves after its first validation pass. *)
Lemma epoch_loop_leaves_at_once (g : Globals) (val_loader : DataLoader Data)
    (epochs : list nat) (best_loss : Q) (last : option nat) (s : t) :
  let r := epoch_loop g val_loader epochs best_loss last s in
  events (snd r) = events s
  /\ match fst r with
     | Normal (Fallthrough, (_, last')) => epochs = [] /\ last' = last
     | _ => True
     end.
Proof.
  intros r. subst r.
  destruct epochs as [|epoch rest]; [cbn; auto|].
  assert (E : epoch_loop g val_loader (epoch :: rest) best_loss last s
              = match validate_fn g val_loader s with
                | (Normal _, s1) =>
                    (Normal (Returned tt, (best_loss, Some epoch)), s1)
                | (Raise e, s1) => (Raise e, s1)
                end).
  { cbn [epoch_loop]. unfold bind at 1.
    destruct (validate_fn g val_loader s) as [[results|e] s1]; reflexivity. }
  rewrite E.
  pose proof (events_validate_fn g val_loader s) as P.
  destruct (validate_fn g val_loader s) as [[results|e] s1]; cbn in *; auto.
Qed.

Lemma get_coco_loaders_state (g : Globals) (self : t) :
  snd (get_coco_loaders g self) = self.
Proof.
  unfold get_coco_loaders, bind, lift, gets, ret, lookup_name.
  destruct (Namespace.FLAGS g) as [flags|]; [|reflexivity].
  repeat (step_match; try reflexivity).
Qed.

(** C1, what the code does.  Whatever the trainer, the namespace and the
    validation losses, [run] writes no checkpoint: the log of the run gains
    no event at all.  The loop body executes [return] right after the first
    validation pass, before the comparison with [best_loss]. *)
Theorem run_creates_no_checkpoint (g : Globals) (self : t) :
  let r := run g self in
  events (snd r) = events self
  /\ existsb is_save (new_events self (snd r)) = false.
Proof.
  intros r.
  assert (E : events (snd r) = events self).
  { subst r. unfold run, bind at 1.
    pose proof (get_coco_loaders_state g self) as G.
    destruct (get_coco_loaders g self) as [[[train_loader val_loader]|e] s0];
      cbn in G; subst s0; [|reflexivity].
    cbn. unfold bind at 1.
    match goal with
    | |- context [epoch_loop g ?vl ?es ?b ?l self] =>
        destruct (epoch_loop_leaves_at_once g vl es b l self) as [P Q];
        destruct (epoch_loop g vl es b l self)
          as [[[[|u] [b' last']]|e] s1]
    end; cbn in *; auto.
    destruct Q as [_ ->].
    unfold bind at 1.
    match goal with
    | |- context [validate_fn g ?vl s1] =>
        pose proof (events_validate_fn g vl s1) as V;
        destruct (validate_fn g vl s1) as [[results|e] s2]
    end; cbn in *; congruence. }
  split; [exact E|].
  rewrite (new_events_app self (snd r) []); [reflexivity|].
  now rewrite app_nil_r.
Qed.

End Validation.

(* ------------------------------------------------------------------ *)
(** ** The theorems at work on the example environment *)

Section Examples.
#[local] Existing Instance Example.env.

Lemma update_appends_to_active_series_witness :
  (fst (UNetMetrics.update 1 (1 # 8) [[[1; 1]]] [[[1; 1]]] Example.engine_state)
   = Normal tt
   /\ UNetMetrics.series "val" "step"
        (snd (UNetMetrics.update 1 (1 # 8) [[[1; 1]]] [[[1; 1]]]
                Example.engine_state))
      = UNetMetrics.series "val" "step" Example.engine_state
        ++ [UNetMetrics.CInt 1])
  /\ (fst (UNetMetrics.update 1 (1 # 8) [[[1; 1]]] [[[1]]] Example.engine_state)
      <> Normal tt
      /\ UNetMetrics.plots
           (snd (UNetMetrics.update 1 (1 # 8) [[[1; 1]]] [[[1]]]
                   Example.engine_state))
         = UNetMetrics.plots Example.engine_state).
Proof.
  split; split.
  - reflexivity.
  - exact (proj1 (proj1 (proj2 (update_appends_to_active_series
                                  2 Example.engine_calls)
                               1 (1 # 8) [[[1; 1]]] [[[1; 1]]])
                        eq_refl)).
  - discriminate.
  - apply (proj2 (proj2 (update_appends_to_active_series
                           2 Example.engine_calls)
                        1 (1 # 8) [[[1; 1]]] [[[1]]])).
    discriminate.
Defined.

(** The engine of the example after its three calls: one entry per stage,
    the accuracy is missing. *)
Example compute_example :
  UNetMetrics.compute
    (UNetMetrics.exec Example.engine_calls (UNetMetrics.__init__ 2))
  = [("train", [("dice", (1 # 2)%Q)]); ("val", [("dice", (2 # 2)%Q)])].
Proof. reflexivity. Qed.

(** The same through the call: it returns once every accumulator has seen
    an update, and raises on the engine as constructed. *)
Example compute_call_example :
  UNetMetrics.compute_call Example.engine_state
  = Normal [("train", [("dice", (1 # 2)%Q)]); ("val", [("dice", (2 # 2)%Q)])]
  /\ UNetMetrics.compute_call (UNetMetrics.__init__ 2)
     = Raise (RuntimeError "compute called before any update").
Proof. split; reflexivity. Qed.

(** C10 as stated fails.  An [update] whose metric refuses its arguments is
    a call made while Training was active, and it appends nothing: the
    Training series are empty after one call. *)
Lemma update_appends_counterexample :
  ~ UNetMetrics.series_count_claim Example.refused_calls
      (UNetMetrics.__init__ 2).
Proof.
  intros H. inversion H as [|stage rest Htrain _]. subst.
  inversion Htrain as [|name names Hstep _]. subst.
  vm_compute in Hstep. discriminate Hstep.
Qed.

(** C6 as stated fails.  After training updates only, [compute()] raises on
    the validation accumulators, which have seen nothing: there is no
    Training aggregate before the validation updates to compare with. *)
Lemma phases_do_not_interfere_counterexample :
  ~ UNetMetrics.same_aggregate "train" Example.trained_engine
      Example.validated_engine.
Proof.
  intros [r1 [r2 [H1 _]]]. vm_compute in H1. discriminate H1.
Qed.

Lemma phases_do_not_interfere_witness :
  UNetMetrics.same_aggregate "train" Example.engine_state
    (UNetMetrics.exec (UNetMetrics.as_updates Example.validation_updates)
                      (snd (UNetMetrics.eval Example.engine_state))).
Proof.
  eexists. eexists.
  split; [reflexivity|]. split; [reflexivity|].
  apply (proj2 (proj2 (proj1 (phases_do_not_interfere
                                2 Example.engine_calls
                                Example.validation_updates))));
    reflexivity.
Defined.

Example to_dataframe_example :
  UNetMetrics._to_dataframe Namespace.import_globals
    (UNetMetrics.exec Example.engine_calls (UNetMetrics.__init__ 2))
  = Raise (NameError "alt_names").
Proof. reflexivity. Qed.

Lemma one_hot_argmax_round_trip_witness :
  exists encoded,
    UNetTrainer.one_hot_encoding Example.fresh_trainer [[[1; 0]; [0; 1]]]
    = Normal encoded
    /\ has_shape4 1 2 2 2 encoded
    /\ argmax_dim1 (float encoded) = Normal [[[1; 0]; [0; 1]]]
    /\ (UNetTrainer.num_classes Example.fresh_trainer <= 2 ^ 31 ->
        UNetTrainer.argmax_int (float encoded) = Normal [[[1; 0]; [0; 1]]]).
Proof.
  apply (one_hot_argmax_round_trip Example.fresh_trainer 1 2 2
           [[[1; 0]; [0; 1]]]).
  - reflexivity.
  - repeat constructor.
  - simpl. intros v Hv. change (UNetTrainer.num_classes _) with 2.
    intuition lia.
Defined.


(** C4 as stated fails.  A trainer constructed with a checkpoint has bound
    its optimizer before any freeze policy was applied, and what follows in
    its log is [AttributeError]: [self.checkpoint_path] was never assigned.
    Also on a trainer whose [load_checkpoint] completes, the only binding of
    the optimizer precedes the load and the freeze policy. *)
Lemma initialization_order_counterexample :
  ~ UNetTrainer.initialization_order_claim
      (UNetTrainer.events
         (snd (UNetTrainer.__init__ (Namespace.script_globals Example.flags)
                 256 2 1 4 (5 # 10000) "weights/unet.pth.tar" true 4 false)))
  /\ ~ UNetTrainer.initialization_order_claim
         (UNetTrainer.events
            (snd (UNetTrainer.load_checkpoint Example.prepared_globals
                    (Example.prepared_trainer "weights/unet.pth.tar")))).
Proof.
  split; intros [_ H]; vm_compute in H; discriminate H.
Qed.

Lemma initialization_order_witness :
  fst (UNetTrainer.load_checkpoint Example.prepared_globals
         (Example.prepared_trainer "weights/unet.pth.tar")) = Normal tt
  /\ ((exists file f,
          UNetTrainer.new_events
            (Example.prepared_trainer "weights/unet.pth.tar")
            (snd (UNetTrainer.load_checkpoint Example.prepared_globals
                    (Example.prepared_trainer "weights/unet.pth.tar")))
          = [UNetTrainer.EvTorchLoad file; UNetTrainer.EvLoadModelState;
             UNetTrainer.EvLoadOptimizerState; UNetTrainer.EvFreezePolicy f])
      /\ UNetTrainer.param_names
           (UNetTrainer.optimizer
              (snd (UNetTrainer.load_checkpoint Example.prepared_globals
                      (Example.prepared_trainer "weights/unet.pth.tar"))))
         = UNetTrainer.param_names
             (UNetTrainer.optimizer
                (Example.prepared_trainer "weights/unet.pth.tar"))).
Proof.
  split; [reflexivity|].
  exact (proj2 (proj2 (initialization_order Example.prepared_globals
                         256 2 1 4 (5 # 10000) "" false 4 false))
               (Example.prepared_trainer "weights/unet.pth.tar") eq_refl).
Defined.

Example init_with_checkpoint_example :
  fst (UNetTrainer.__init__ (Namespace.script_globals Example.flags)
         256 2 1 4 (5 # 10000) "weights/unet.pth.tar" true 4 false)
  = Raise (AttributeError "checkpoint_path").
Proof. reflexivity. Qed.

(** C2 as stated fails.  A loss error on a batch whose images and labels
    disagree in number propagates out of both validation passes with the
    model left in evaluation mode; and on the trainer as [__init__] leaves
    it, a well-formed batch ends the same way, at [self.metrics["val"]]. *)
Lemma validation_mode_counterexample :
  (fst (UNetTrainer.validate_one_batch Example.mismatched_loader
          Example.prepared)
   = Raise (ValueError "Expected input batch_size to match target batch_size")
   /\ UNetTrainer.training
        (UNetTrainer.model
           (snd (UNetTrainer.validate_one_batch Example.mismatched_loader
                   Example.prepared)))
      = false)
  /\ (fst (UNetTrainer.validate_fn Example.prepared_globals
             Example.mismatched_loader Example.prepared)
      = Raise (ValueError
                 "Expected input batch_size to match target batch_size")
      /\ UNetTrainer.training
           (UNetTrainer.model
              (snd (UNetTrainer.validate_fn Example.prepared_globals
                      Example.mismatched_loader Example.prepared)))
         = false)
  /\ (fst (UNetTrainer.validate_one_batch [Example.example_batch]
             Example.fresh_trainer)
      = Raise (TypeError "'UNetMetrics' object is not subscriptable")
      /\ UNetTrainer.training
           (UNetTrainer.model
              (snd (UNetTrainer.validate_one_batch [Example.example_batch]
                      Example.fresh_trainer)))
         = false).
Proof. repeat split. Qed.

Lemma validation_mode_after_witness :
  (is_normal (fst (UNetTrainer.validate_one_batch [Example.example_batch]
                     Example.prepared))
   = true
   /\ UNetTrainer.training
        (UNetTrainer.model
           (snd (UNetTrainer.validate_one_batch [Example.example_batch]
                   Example.prepared)))
      = is_normal (fst (UNetTrainer.validate_one_batch [Example.example_batch]
                          Example.prepared)))
  /\ (is_normal (fst (UNetTrainer.validate_fn Example.prepared_globals
                        [Example.example_batch] Example.prepared))
      = true
      /\ UNetTrainer.training
           (UNetTrainer.model
              (snd (UNetTrainer.validate_fn Example.prepared_globals
                      [Example.example_batch] Example.prepared)))
         = is_normal (fst (UNetTrainer.validate_fn Example.prepared_globals
                             [Example.example_batch] Example.prepared))).
Proof.
  split; split.
  - reflexivity.
  - exact (validation_mode_after Example.prepared_globals
             [Example.example_batch] Example.prepared _ _ (or_introl eq_refl)).
  - reflexivity.
  - exact (validation_mode_after Example.prepared_globals
             [Example.example_batch] Example.prepared _ _ (or_intror eq_refl)).
Defined.

(** A run on the example: the first validation pass returns a loss below
    [best_loss], and the run returns without a checkpoint. *)
Example run_example :
  let prepared := Example.prepared_trainer "weights/unet.pth.tar" in
  fst (UNetTrainer.validate_fn Example.prepared_globals [Example.example_batch]
         prepared)
  = Normal [("loss", 1%Q); ("accuracy", (1 # 2)%Q)]
  /\ fst (UNetTrainer.run Example.prepared_globals prepared) = Normal tt
  /\ UNetTrainer.events (snd (UNetTrainer.run Example.prepared_globals prepared))
     = UNetTrainer.events prepared.
Proof. repeat split. Qed.

(** The script as written: the first validation pass raises. *)
Example run_script_example :
  fst (UNetTrainer.run (Namespace.script_globals Example.flags)
         Example.fresh_trainer)
  = Raise (TypeError "'UNetMetrics' object is not subscriptable").
Proof. reflexivity. Qed.

(** The statements after [return], had they been reached on the losses
    5.0, 3.0, 4.0, 2.0: checkpoints at epochs 0, 1 and 3. *)
Example policy_after_return_example :
  let prepared := Example.prepared_trainer "weights/unet.pth.tar" in
  UNetTrainer.new_events prepared
    (snd (UNetTrainer.policy_after_return Example.prepared_globals
            [5%Q; 3%Q; 4%Q; 2%Q] 0 9999%Q prepared))
  = map (fun epoch =>
           UNetTrainer.EvTorchSave
             (join CHECKPOINT_DIR (UNetTrainer.checkpoint_filename epoch)))
        [0%nat; 1%nat; 3%nat].
Proof. reflexivity. Qed.

(** The same statements never save when the first loss is 9999 or more:
    the tracker starts at 9999, not at infinity. *)
Example policy_after_return_large_loss :
  let prepared := Example.prepared_trainer "weights/unet.pth.tar" in
  UNetTrainer.new_events prepared
    (snd (UNetTrainer.policy_after_return Example.prepared_globals
            [10000%Q] 0 9999%Q prepared))
  = [].
Proof. reflexivity. Qed.

Example freeze_policy_example :
  map (fun np => (fst np, requires_grad (snd np)))
      (UNetTrainer.named_parameters
         (UNetTrainer.model
            (snd (UNetTrainer.apply_freeze_policy true Example.fresh_trainer))))
  = [("downs.0.conv.0.weight", false); ("bottleneck.conv.0.weight", false);
     ("final_conv.weight", true); ("final_conv.bias", true)].
Proof. reflexivity. Qed.

End Examples.

(* ------------------------------------------------------------------ *)
(** ** More on the validation and training passes *)

Section Passes.
Context {env : TorchEnv}.
Import UNetTrainer.

(** X1.  On an empty loader [validate_one_batch] raises [StopIteration] and
    [validate_fn] raises [ZeroDivisionError] (the mean over [len(loader)]),
    each leaving the trainer as it was but for the model, now in evaluation
    mode.  On a non-empty loader [validate_one_batch] looks at the first
    batch only. *)
Theorem validation_on_empty_loader (g : Globals) (self : t) :
  validate_one_batch [] self = (Raise StopIteration, snd (model_eval self))
  /\ validate_fn g [] self = (Raise ZeroDivisionError, snd (model_eval self))
  /\ training (model (snd (model_eval self))) = false
  /\ forall batch rest,
       validate_one_batch (batch :: rest) self
       = validate_one_batch [batch] self.
Proof. repeat split. Qed.

Section Observed.
Context {X : Type} (f : t -> X).
Hypothesis f_set_metrics : forall a s, f (set_metrics a s) = f s.
Hypothesis f_mode :
  forall b s, f (set_model (mkModel b (named_parameters (model s))) s) = f s.

Lemma observed_validate_one_batch (loader : DataLoader Data) :
  preserves f (validate_one_batch loader).
Proof.
  unfold validate_one_batch.
  apply preserves_bind; [intros s; apply f_mode|]. intros _.
  apply preserves_bind;
    [apply preserves_validate_one_batch_block; exact f_set_metrics|].
  intros [loss acc].
  apply preserves_bind; [intros s; apply f_mode|]. intros _.
  apply preserves_ret.
Qed.

Lemma observed_validate_fn (g : Globals) (loader : DataLoader Data) :
  preserves f (validate_fn g loader).
Proof.
  unfold validate_fn.
  apply preserves_bind; [intros s; apply f_mode|]. intros _.
  apply preserves_bind;
    [apply preserves_validate_fn_loop; exact f_set_metrics|].
  intros [rl ra].
  repeat (apply preserves_bind; [apply preserves_lift|]; intros ?).
  apply preserves_bind; [intros s; apply f_mode|]. intros _.
  apply preserves_ret.
Qed.

End Observed.

Section Trained.
Context {X : Type} (f : t -> X).
Hypothesis f_set_metrics : forall a s, f (set_metrics a s) = f s.
Hypothesis f_step :
  forall ps st s,
    f (set_optimizer
         (mkOptimizer (param_names (optimizer s)) (lr (optimizer s)) (Some st))
         (set_parameters ps s))
    = f s.



End Trained.

(** X2.  A validation pass, whether it returns or raises, changes nothing of
    the trainer but the mode flag and the metric objects: the parameters,
    the optimizer, the checkpoint path and the log of outside effects are
    the same afterwards. *)
Theorem validation_is_read_only (g : Globals) (loader : DataLoader Data)
    (self : t) :
  Forall (fun self' =>
            named_parameters (model self') = named_parameters (model self)
            /\ optimizer self' = optimizer self
            /\ checkpoint_path self' = checkpoint_path self
            /\ events self' = events self)
         [snd (validate_one_batch loader self); snd (validate_fn g loader self)].
Proof.
  set (f := fun s : t =>
              (named_parameters (model s), optimizer s, checkpoint_path s,
               events s)).
  assert (H1 : f (snd (validate_one_batch loader self)) = f self)
    by (apply observed_validate_one_batch; reflexivity).
  assert (H2 : f (snd (validate_fn g loader self)) = f self)
    by (apply observed_validate_fn; reflexivity).
  unfold f in H1, H2.
  injection H1 as A1 A2 A3 A4. injection H2 as B1 B2 B3 B4.
  constructor; [auto|constructor; [auto|constructor]].
Qed.



(** X4.  On a trainer whose [metrics] attribute holds a [UNetMetrics], as
    [__init__] leaves it, no pass returns: both validation passes raise on
    every loader, and so does [train_fn] on every loader with a batch (at the
    latest at the subscript [self.metrics[...]]). *)
Theorem passes_raise_on_engine_attribute (g : Globals)
    (loader : DataLoader Data) (epoch : nat) (self : t) (m : UNetMetrics.t) :
  metrics self = Some (EngineObj m) ->
  is_normal (fst (validate_one_batch loader self)) = false
  /\ is_normal (fst (validate_fn g loader self)) = false
  /\ (loader <> [] -> is_normal (fst (train_fn loader epoch self)) = false).
Proof.
  intros Hm. destruct self. cbn in Hm. subst.
  split; [|split].
  - unfold validate_one_batch, validate_one_batch_block, bind, model_eval,
      modify, no_grad, lift, gets, call_metrics, attribute, raise, next_iter.
    cbn. repeat (step_match; cbn; try reflexivity).
  - unfold validate_fn, bind at 1, model_eval, modify. cbn beta iota.
    unfold bind at 1, no_grad.
    destruct loader as [|[data targets] rest]; [reflexivity|].
    cbn [validate_fn_loop].
    unfold bind, lift, gets, call_metrics, attribute, raise. cbn.
    repeat (step_match; cbn; try reflexivity).
  - intros Hne. destruct loader as [|[data targets] rest]; [congruence|].
    cbn [train_fn].
    unfold bind, lift, gets, modify, backward_step, call_metrics, attribute,
      raise.
    cbn.
    repeat (step_match; cbn; try reflexivity).
Qed.

End Passes.

(* ------------------------------------------------------------------ *)
(** ** More on construction, checkpoint loading and the run *)

Section Construction.
Context {env : TorchEnv}.
Import UNetTrainer.

Lemma init_without_checkpoint (g : Globals)
    (image_size num_classes batch_size num_epochs : Z) (learning_rate : Q)
    (freeze : bool) (num_workers : Z) (pin_memory : bool) :
  let r := UNetTrainer.__init__ g image_size num_classes batch_size num_epochs
             learning_rate "" freeze num_workers pin_memory in
  training (model (snd r)) = true
  /\ checkpoint_path (snd r) = None
  /\ UNetTrainer.num_epochs (snd r) = num_epochs
  /\ checkpoint_dir (snd r) = ""
  /\ events (snd r)
     = [EvModelConstruct 3 num_classes;
        EvOptimizerBind
          (map fst (filter (fun np => requires_grad (snd np))
                           (UNET 3 num_classes)));
        EvCreateDirectory CHECKPOINT_DIR]
  /\ match create_directory CHECKPOINT_DIR with
     | Raise e => fst r = Raise e /\ metrics (snd r) = None
     | Normal _ =>
         match UNetMetrics.new num_classes with
         | Raise e => fst r = Raise e /\ metrics (snd r) = None
         | Normal m =>
             fst r = Normal tt /\ metrics (snd r) = Some (EngineObj m)
         end
     end.
Proof.
  unfold UNetTrainer.__init__, bind, ret, emit, modify, lift. cbn.
  destruct (1 <? cuda_device_count), (create_directory CHECKPOINT_DIR),
    (UNetMetrics.new num_classes); cbn; repeat split.
Qed.


(** X6.  [load_checkpoint] checks the extension of [self.checkpoint_path]
    but reads the file named by the module-level name [checkpoint_path]:
    whenever it reads a file, the attribute held a path ending in
    [.pth.tar], and the file read is the one the module-level name is bound
    to, whatever the attribute says. *)
Theorem load_checkpoint_reads_module_path (g : Globals) (self : t)
    (file : string) :
  In (EvTorchLoad file) (new_events self (snd (load_checkpoint g self))) ->
  Namespace.checkpoint_path g = Some file
  /\ exists path,
       checkpoint_path self = Some path /\ endswith path ".pth.tar" = true.
Proof.
  assert (H : exists l,
             events (snd (load_checkpoint g self)) = events self ++ l
             /\ (In (EvTorchLoad file) l ->
                 Namespace.checkpoint_path g = Some file
                 /\ exists path,
                      checkpoint_path self = Some path
                      /\ endswith path ".pth.tar" = true)).
  { unfold load_checkpoint, bind at 1, attribute.
    destruct (checkpoint_path self) as [path|] eqn:Hp; cbn;
      [|exists []; rewrite app_nil_r; split; [reflexivity|intros []]].
    destruct (endswith path ".pth.tar") eqn:Hext; cbn;
      [|exists []; rewrite app_nil_r; split; [reflexivity|intros []]].
    unfold bind, emit, modify, gets, lift, raise, apply_freeze_policy,
      lookup_name. cbn.
    destruct (Namespace.checkpoint_path g) as [file0|] eqn:Hg; cbn;
      [|exists []; rewrite app_nil_r; split; [reflexivity|intros []]].
    repeat (step_match; cbn);
      (eexists; rewrite <- ?app_assoc; cbn [app];
       split; [reflexivity|];
       intros Hin; cbn in Hin;
       repeat (destruct Hin as [Hin|Hin]; try discriminate Hin);
       try contradiction;
       inversion Hin; subst; eauto). }
  destruct H as [l [E Hl]]. intros Hin.
  rewrite (new_events_app _ _ _ E) in Hin. auto.
Qed.

(** X9.  A model wrapped by [DataParallel] has every parameter name under
    the prefix [module.], so the freeze block with [freeze = true] finds no
    name starting with [final_conv]: it marks every parameter, those of the
    final layer included, non-trainable. *)
Theorem freeze_after_data_parallel (self : t) :
  Forall (fun np => requires_grad (snd np) = false)
         (named_parameters
            (model (snd (apply_freeze_policy true (DataParallel self))))).
Proof.
  destruct (freeze_policy_block true (DataParallel self)) as [_ [E _]].
  rewrite E. unfold DataParallel. cbn.
  rewrite map_map. apply Forall_forall. intros np Hin.
  apply in_map_iff in Hin. destruct Hin as [[name param] [<- _]].
  reflexivity.
Qed.

Lemma epoch_loop_cons (g : Globals) (val_loader : DataLoader Data)
    (epoch : nat) (rest : list nat) (best_loss : Q) (last : option nat)
    (s : t) :
  epoch_loop g val_loader (epoch :: rest) best_loss last s
  = match validate_fn g val_loader s with
    | (Normal _, s1) => (Normal (Returned tt, (best_loss, Some epoch)), s1)
    | (Raise e, s1) => (Raise e, s1)
    end.
Proof.
  cbn [epoch_loop]. unfold bind at 1.
  destruct (validate_fn g val_loader s) as [[results|e] s1]; reflexivity.
Qed.

Lemma run_one_pass (g : Globals) (flags : Flags) (self : t) :
  Namespace.FLAGS g = Some flags ->
  0 < num_epochs self ->
  run g self
  = match coco_loader (join (Namespace.images flags) "train2017")
                      (join (Namespace.masks flags) "train2017")
                      (image_size self) true (batch_size self) true
                      (num_workers self) (pin_memory self) with
    | Raise e => (Raise e, self)
    | Normal train_loader =>
        match coco_loader (join (Namespace.images flags) "val2017")
                          (join (Namespace.masks flags) "val2017")
                          (image_size self) false (batch_size self) false
                          (num_workers self) (pin_memory self) with
        | Raise e => (Raise e, self)
        | Normal val_loader =>
            match validate_fn g val_loader self with
            | (Normal _, s) => (Normal tt, s)
            | (Raise e, s) => (Raise e, s)
            end
        end
    end.
Proof.
  intros HF Hn. unfold run, bind at 1, get_coco_loaders.
  unfold bind at 1, lift, lookup_name. rewrite HF.
  unfold bind at 1, gets. cbn [fst snd].
  unfold bind at 1.
  destruct (coco_loader _ _ _ true _ _ _ _) as [train_loader|e];
    [|reflexivity].
  unfold bind at 1.
  destruct (coco_loader _ _ _ false _ _ _ _) as [val_loader|e];
    [|reflexivity].
  cbn -[validate_fn epoch_loop Z.to_nat].
  destruct (Z.to_nat (num_epochs self)) as [|k] eqn:K; [lia|].
  cbn [seq]. unfold bind at 1. rewrite epoch_loop_cons.
  destruct (validate_fn g val_loader self) as [[results|e] s1]; reflexivity.
Qed.

(** X10.  With [FLAGS] bound and at least one epoch asked for, [run] builds
    the loader of the [train2017] directories and then the one of the
    [val2017] directories, from the trainer's image size, batch size, number
    of workers and pin-memory flag, and raises what either construction
    raises, the trainer untouched.  Once both are built, [run] is exactly
    one full validation pass over the validation loader: it returns when
    that pass returns, raises what it raises, and leaves the trainer as that
    pass leaves it.  No training pass is ever made and the number of epochs
    beyond the first plays no role. *)
Theorem run_is_one_validation_pass (g : Globals) (flags : Flags) (self : t) :
  Namespace.FLAGS g = Some flags ->
  0 < num_epochs self ->
  run g self
  = match coco_loader (join (Namespace.images flags) "train2017")
                      (join (Namespace.masks flags) "train2017")
                      (image_size self) true (batch_size self) true
                      (num_workers self) (pin_memory self) with
    | Raise e => (Raise e, self)
    | Normal train_loader =>
        match coco_loader (join (Namespace.images flags) "val2017")
                          (join (Namespace.masks flags) "val2017")
                          (image_size self) false (batch_size self) false
                          (num_workers self) (pin_memory self) with
        | Raise e => (Raise e, self)
        | Normal val_loader =>
            match validate_fn g val_loader self with
            | (Normal _, s) => (Normal tt, s)
            | (Raise e, s) => (Raise e, s)
            end
        end
    end.
Proof. exact (run_one_pass g flags self). Qed.

(** X11.  [run] without [FLAGS] in the module namespace (the module was
    imported, not run as a script) raises [NameError] before doing anything;
    and [run] with no epoch to make never returns: after the final
    validation pass the report reads the loop variable [epoch], which was
    never bound. *)
Theorem run_degenerate (g : Globals) (self : t) :
  (Namespace.FLAGS g = None -> run g self = (Raise (NameError "FLAGS"), self))
  /\ (num_epochs self <= 0 -> is_normal (fst (run g self)) = false).
Proof.
  split.
  - intros HF. unfold run, bind at 1, get_coco_loaders.
    unfold bind at 1, lift, lookup_name. now rewrite HF.
  - intros Hn. unfold run, bind at 1.
    pose proof (get_coco_loaders_state g self) as G.
    destruct (get_coco_loaders g self) as [[[train_loader val_loader]|e] s0];
      cbn in G; subst s0; [|reflexivity].
    cbn -[validate_fn epoch_loop Z.to_nat].
    replace (Z.to_nat (num_epochs self)) with 0%nat by lia.
    cbn [seq epoch_loop]. unfold bind at 1. cbn -[validate_fn].
    unfold bind at 1.
    destruct (validate_fn g val_loader self) as [[results|e] s1]; reflexivity.
Qed.

End Construction.

(* ------------------------------------------------------------------ *)
(** ** The script, the statements after [return], and file names *)

Lemma endswith_cons (c : ascii) (s suffix : string) :
  endswith s suffix = true -> endswith (String c s) suffix = true.
Proof.
  unfold endswith. intros H. apply andb_true_iff in H. destruct H as [L E].
  apply Nat.leb_le in L. apply andb_true_iff. split.
  - apply Nat.leb_le. cbn [String.length]. lia.
  - cbn [String.length].
    replace (S (String.length s) - String.length suffix)%nat
      with (S (String.length s - String.length suffix)) by lia.
    exact E.
Qed.

Lemma endswith_append (a s suffix : string) :
  endswith s suffix = true -> endswith (a ++ s)%string suffix = true.
Proof.
  intros H. induction a as [|c a IH]; [exact H|].
  cbn [String.append]. now apply endswith_cons.
Qed.

Lemma endswith_join (d f suffix : string) :
  endswith f suffix = true -> endswith (join d f) suffix = true.
Proof.
  intros H. unfold join.
  destruct (String.eqb d ""); [exact H|].
  destruct (endswith d "/"); repeat apply endswith_append; exact H.
Qed.

Lemma append_inj_l (a x y : string) :
  (a ++ x)%string = (a ++ y)%string -> x = y.
Proof.
  induction a as [|c a IH]; cbn [String.append]; intros H; [exact H|].
  injection H as H. auto.
Qed.

Lemma length_append (a b : string) :
  String.length (a ++ b) = (String.length a + String.length b)%nat.
Proof.
  induction a as [|c a IH]; cbn [String.append String.length]; [reflexivity|].
  now rewrite IH.
Qed.

Lemma append_inj_r (s : string) :
  forall x y : string, (x ++ s)%string = (y ++ s)%string -> x = y.
Proof.
  induction x as [|c x IH]; intros [|d y] H; cbn [String.append] in H.
  - reflexivity.
  - apply (f_equal String.length) in H.
    cbn [String.length] in H. rewrite length_append in H. lia.
  - apply (f_equal String.length) in H.
    cbn [String.length] in H. rewrite length_append in H. lia.
  - injection H as Hc H. subst d. f_equal. now apply IH.
Qed.

Lemma join_inj (d x y : string) : join d x = join d y -> x = y.
Proof.
  unfold join. destruct (String.eqb d ""); [auto|].
  destruct (endswith d "/"); intros H.
  - now apply append_inj_l in H.
  - apply append_inj_l in H. now apply append_inj_l in H.
Qed.

Lemma decimal_inj (n m : nat) :
  NilZero.string_of_uint (Nat.to_uint n) = NilZero.string_of_uint (Nat.to_uint m)
  -> n = m.
Proof.
  intros H.
  assert (N : forall k, Nat.to_uint k <> Decimal.Nil).
  { intros k.
    rewrite <- (DecimalNat.Unsigned.of_to k), DecimalNat.Unsigned.to_of.
    apply DecimalFacts.unorm_nonnil. }
  apply (f_equal NilZero.uint_of_string) in H.
  rewrite !NilZero.usu in H by apply N.
  injection H as H. now apply DecimalNat.Unsigned.to_uint_inj.
Qed.

Section Script.
Context {env : TorchEnv}.
Import UNetTrainer.

(** X12.  The path a checkpoint is saved under, in any directory, ends in
    [.pth.tar], the extension [load_checkpoint] asks for; and two different
    epochs never share a path, so a later checkpoint does not overwrite an
    earlier one. *)
Theorem checkpoint_paths (dir : string) (epoch : nat) :
  endswith (join dir (checkpoint_filename epoch)) ".pth.tar" = true
  /\ forall epoch',
       join dir (checkpoint_filename epoch)
       = join dir (checkpoint_filename epoch') ->
       epoch = epoch'.
Proof.
  split.
  - apply endswith_join. unfold checkpoint_filename.
    repeat apply endswith_append. reflexivity.
  - intros epoch' H. apply join_inj in H. unfold checkpoint_filename in H.
    apply append_inj_l in H. apply append_inj_r in H.
    now apply decimal_inj.
Qed.

(** X13.  The statements that follow [return] in the loop body, for one
    epoch: they write at most one checkpoint, under the path of that epoch;
    they write only when the loss of the summary is strictly below the
    tracker and [FLAGS.debug] is off; and when they complete, the new
    tracker is the smaller of the loss and the old tracker, so it never
    goes up. *)
Theorem save_if_best_effects (g : Globals) (epoch : nat) (results : summary)
    (best_loss : Q) (self : t) :
  let r := save_if_best g epoch results best_loss self in
  let saved := new_events self (snd r) in
  (saved = []
   \/ saved = [EvTorchSave (join CHECKPOINT_DIR (checkpoint_filename epoch))])
  /\ (saved <> [] ->
      exists loss flags,
        getitem "loss" results = Some loss
        /\ (loss < best_loss)%Q
        /\ Namespace.FLAGS g = Some flags
        /\ Namespace.debug flags = false)
  /\ (forall f best_loss',
        fst r = Normal (f, best_loss') ->
        f = Fallthrough
        /\ (best_loss' <= best_loss)%Q
        /\ exists loss,
             getitem "loss" results = Some loss
             /\ best_loss' = if Qlt_bool loss best_loss then loss
                             else best_loss).
Proof.
  intros r saved. subst r saved.
  unfold save_if_best, bind, lift, subscript, lookup_name, save_checkpoint,
    emit, modify, raise, ret.
  destruct (getitem "loss" results) as [loss|] eqn:HL; cbn.
  2:{ rewrite (new_events_app self self []) by now rewrite app_nil_r.
      split; [now left|]. split; [congruence|]. intros f b H. discriminate H. }
  destruct (getitem "accuracy" results) as [acc|]; cbn.
  2:{ rewrite (new_events_app self self []) by now rewrite app_nil_r.
      split; [now left|]. split; [congruence|]. intros f b H. discriminate H. }
  assert (Hlt : Qlt_bool loss best_loss = true -> (loss < best_loss)%Q).
  { unfold Qlt_bool. intros H. apply negb_true_iff in H.
    apply Qnot_le_lt. intros C. apply Qle_bool_iff in C. congruence. }
  destruct (Qlt_bool loss best_loss) eqn:HQ; cbn.
  2:{ rewrite (new_events_app self self []) by now rewrite app_nil_r.
      split; [now left|]. split; [congruence|].
      intros f b H. injection H as <- <-.
      split; [reflexivity|]. split; [apply Qle_refl|].
      exists loss. now rewrite HQ. }
  destruct (Namespace.FLAGS g) as [flags|]; cbn.
  2:{ rewrite (new_events_app self self []) by now rewrite app_nil_r.
      split; [now left|]. split; [congruence|]. intros f b H. discriminate H. }
  destruct (Namespace.debug flags) eqn:HD; cbn.
  { rewrite (new_events_app self self []) by now rewrite app_nil_r.
    split; [now left|]. split; [congruence|].
    intros f b H. injection H as <- <-.
    split; [reflexivity|]. split; [apply Qlt_le_weak; auto|].
    exists loss. now rewrite HQ. }
  destruct (Namespace.save_checkpoint g); cbn.
  - erewrite new_events_app by (cbn; reflexivity).
    split; [now right|]. split.
    + intros _. exists loss, flags. auto.
    + intros f b H. injection H as <- <-.
      split; [reflexivity|]. split; [apply Qlt_le_weak; auto|].
      exists loss. now rewrite HQ.
  - rewrite (new_events_app self self []) by now rewrite app_nil_r.
    split; [now left|]. split; [congruence|]. intros f b H. discriminate H.
Qed.

(** X14.  The script never returns normally and never loads a checkpoint.
    On an interpreter that evaluates annotations at the [def] it stops with
    [NameError] at the annotation [Tensor] while the class [UNetMetrics] is
    created, before any trainer exists.  Otherwise, with [--freeze] and no
    [--checkpoint] it raises [ValueError], again before a trainer exists;
    and a trainer, once its constructor is entered, has an empty
    [checkpoint_dir], whatever [--checkpoint] says, and a log that holds the
    model construction, the optimizer binding and the directory creation and
    nothing else: no checkpoint is read and none is written. *)
Theorem main_outcome (eager_annotations cuda_is_available : bool)
    (flags : Flags) :
  let r := Script.main eager_annotations cuda_is_available flags in
  is_normal (fst r) = false
  /\ (eager_annotations = true -> r = (Raise (NameError "Tensor"), None))
  /\ (eager_annotations = false ->
      Namespace.freeze flags = true -> Namespace.checkpoint flags = "" ->
      r = (Raise (ValueError
                    "Must specify a checkpoint file (.pth.tar) for freeze"),
           None))
  /\ forall trainer,
       snd r = Some trainer ->
       checkpoint_dir trainer = ""
       /\ events trainer
          = [EvModelConstruct 3 81;
             EvOptimizerBind
               (map fst (filter (fun np => requires_grad (snd np))
                                (UNET 3 81)));
             EvCreateDirectory CHECKPOINT_DIR].
Proof.
  intros r. subst r. unfold Script.main, Script.class_UNetMetrics.
  destruct eager_annotations.
  { cbn. split; [reflexivity|]. split; [reflexivity|].
    split; [discriminate|]. intros trainer H. discriminate H. }
  destruct (Namespace.freeze flags
            && String.eqb (Namespace.checkpoint flags) "") eqn:G.
  { cbn. split; [reflexivity|]. split; [discriminate|].
    split; [reflexivity|]. intros trainer H. discriminate H. }
  assert (G' : Namespace.freeze flags = true ->
               Namespace.checkpoint flags = "" -> False).
  { intros F C. rewrite F, C in G. discriminate G. }
  pose proof (init_without_checkpoint (Namespace.script_globals flags)
                Script.IMAGE_SIZE Script.NUM_CLASSES Script.BATCH_SIZE
                Script.NUM_EPOCHS Script.LEARNING_RATE
                (Namespace.freeze flags) Script.NUM_WORKERS
                (Script.PIN_MEMORY cuda_is_available))
    as [_ [_ [I3 [I4 [I5 _]]]]].
  destruct (UNetTrainer.__init__ _ _ _ _ _ _ _ _ _ _) as [[u|e] s0];
    cbn [fst snd] in *.
  - rewrite (run_one_pass (Namespace.script_globals flags) flags s0)
      by (try reflexivity; rewrite I3; reflexivity).
    assert (Done : forall e : exn,
               is_normal (@Raise unit e) = false
               /\ (false = true -> (@Raise unit e, Some s0)
                                   = (Raise (NameError "Tensor"), None))
               /\ (false = false ->
                   Namespace.freeze flags = true ->
                   Namespace.checkpoint flags = "" ->
                   (@Raise unit e, Some s0)
                   = (Raise (ValueError
                               "Must specify a checkpoint file (.pth.tar) for freeze"),
                      None))
               /\ forall trainer,
                    Some s0 = Some trainer ->
                    checkpoint_dir trainer = ""
                    /\ events trainer
                       = [EvModelConstruct 3 81;
                          EvOptimizerBind
                            (map fst (filter (fun np => requires_grad (snd np))
                                             (UNET 3 81)));
                          EvCreateDirectory CHECKPOINT_DIR]).
    { intros e. split; [reflexivity|]. split; [discriminate|].
      split; [intros _ F C; destruct (G' F C)|].
      intros trainer H. injection H as <-. split; [exact I4|exact I5]. }
    destruct (coco_loader _ _ _ true _ _ _ _) as [train_loader|e];
      [|exact (Done e)].
    destruct (coco_loader _ _ _ false _ _ _ _) as [val_loader|e];
      [|exact (Done e)].
    pose proof (validate_fn_never_returns flags val_loader s0) as V.
    pose proof (events_validate_fn (Namespace.script_globals flags)
                  val_loader s0) as E.
    pose proof (observed_validate_fn checkpoint_dir
                  (fun _ _ => eq_refl) (fun _ _ => eq_refl)
                  (Namespace.script_globals flags) val_loader s0) as D.
    destruct (validate_fn (Namespace.script_globals flags) val_loader s0)
      as [[res|e] s1]; cbn [fst snd] in *; [discriminate V|].
    split; [reflexivity|]. split; [discriminate|].
    split; [intros _ F C; destruct (G' F C)|].
    intros trainer H. injection H as <-. split.
    + now rewrite D.
    + rewrite E, I5. reflexivity.
  - split; [reflexivity|]. split; [discriminate|].
    split; [intros _ F C; destruct (G' F C)|].
    intros trainer H. injection H as <-. split; [exact I4|exact I5].
Qed.

End Script.

(* ------------------------------------------------------------------ *)
(** ** More on the encoding and on the metrics engine *)

Lemma max_entry_ge (l : list Z) (v : Z) : In v l -> v <= max_entry l.
Proof.
  induction l as [|x l IH]; intros H; [destruct H|].
  cbn [max_entry fold_right]. fold (max_entry l).
  destruct H as [->|H]; [lia|]. specialize (IH H). lia.
Qed.

Section EncodingMore.
Context {env : TorchEnv}.

(** X15.  The encoding is channel-first and pointwise an indicator: for
    labels in range, the element [b][c][h][w] of [one_hot_encoding(label)]
    is 1 when [label[b][h][w]] is [c] and 0 otherwise, for every class [c]
    below [num_classes]. *)
Theorem one_hot_encoding_entries (self : UNetTrainer.t) (label : tensor3 Z)
    (b c h w : nat) (v : Z) :
  0 < UNetTrainer.num_classes self ->
  (forall x, In x (entries3 label) -> 0 <= x < UNetTrainer.num_classes self) ->
  History.at3 label b h w = Some v ->
  (c < Z.to_nat (UNetTrainer.num_classes self))%nat ->
  exists encoded,
    UNetTrainer.one_hot_encoding self label = Normal encoded
    /\ History.at4 encoded b c h w = Some (if Z.of_nat c =? v then 1 else 0).
Proof.
  intros Hpos Hrange Hat Hc.
  set (C := Z.to_nat (UNetTrainer.num_classes self)) in *.
  exists (permute_0312 0 C (map3 (indicator C) label)). split.
  - unfold UNetTrainer.one_hot_encoding, long.
    now rewrite one_hot_in_range.
  - unfold History.at3 in Hat. unfold History.at4, permute_0312, map3.
    destruct (nth_error label b) as [img|] eqn:Hb; [|discriminate Hat].
    destruct (nth_error img h) as [row|] eqn:Hh; [|discriminate Hat].
    rewrite map_map.
    rewrite (map_nth_error _ _ _ Hb).
    assert (Hs : nth_error (seq 0 C) c = Some c).
    { rewrite (nth_error_nth' _ 0%nat) by now rewrite length_seq.
      now rewrite seq_nth. }
    rewrite (map_nth_error _ _ _ Hs).
    rewrite map_map. rewrite (map_nth_error _ _ _ Hh).
    rewrite map_map. rewrite (map_nth_error _ _ _ Hat).
    now rewrite nth_indicator.
Qed.

(** X16.  A label outside [0, num_classes) is refused: [one_hot_encoding]
    raises [RuntimeError] as soon as one entry of the label tensor is
    negative or at least [num_classes]. *)
Theorem one_hot_encoding_rejects (self : UNetTrainer.t) (label : tensor3 Z)
    (v : Z) :
  0 < UNetTrainer.num_classes self ->
  In v (entries3 label) ->
  v < 0 \/ UNetTrainer.num_classes self <= v ->
  exists msg,
    UNetTrainer.one_hot_encoding self label = Raise (RuntimeError msg).
Proof.
  intros Hpos Hin Hbad.
  unfold UNetTrainer.one_hot_encoding, long, one_hot.
  destruct (entries3 label) as [|v0 vals] eqn:E; [destruct Hin|].
  destruct (existsb (fun x => x <? 0) (v0 :: vals)) eqn:Hneg; [eauto|].
  destruct (UNetTrainer.num_classes self =? -1) eqn:N;
    [apply Z.eqb_eq in N; lia|].
  destruct Hbad as [Hlt|Hge].
  - assert (existsb (fun x => x <? 0) (v0 :: vals) = true)
      by (apply existsb_exists; exists v; split; [exact Hin|now apply Z.ltb_lt]).
    congruence.
  - pose proof (max_entry_ge _ _ Hin) as Hmax.
    destruct (UNetTrainer.num_classes self <=? max_entry (v0 :: vals)) eqn:L;
      [eauto|].
    apply Z.leb_gt in L. lia.
Qed.

End EncodingMore.

(** Case analysis on the outcome of the next metric call. *)
Ltac case_metric_call :=
  match goal with
  | |- context [metric_call ?m ?p ?t] =>
      let r := fresh "r" in
      let m' := fresh "m'" in
      destruct (metric_call m p t) as [[r|r] m']; cbn
  end.

Section EngineMore.
Context {env : TorchEnv}.
Import UNetMetrics.

Lemma do_call_series (c : call) (self : t) (nt nv : nat) (stage : string) :
  layout self nt nv ->
  In stage stages ->
  series stage "step" (snd (do_call c self))
  = series stage "step" self
    ++ map (fun sl => CInt (fst sl)) (History.recorded stage [c] self)
  /\ series stage "loss" (snd (do_call c self))
     = series stage "loss" self
       ++ map (fun sl => CFloat (snd sl)) (History.recorded stage [c] self).
Proof.
  intros L Hs. destruct L.
  assert (Hst : stage = "train" \/ stage = "val")
    by (destruct Hs as [<-|[<-|[]]]; auto).
  destruct c as [| |step loss p q]; cbn [History.recorded app map].
  - cbn. now rewrite !app_nil_r.
  - cbn. now rewrite !app_nil_r.
  - unfold do_call, update, bind, gets, call_metric, append_plot, stage_of.
    destruct mode; destruct Hst as [-> | ->]; cbn;
      (case_metric_call; [case_metric_call|]); rewrite ?app_nil_r; split; reflexivity.
Qed.

Lemma exec_series (cs : list call) :
  forall (self : t) (nt nv : nat) (stage : string),
    layout self nt nv ->
    In stage stages ->
    series stage "step" (exec cs self)
    = series stage "step" self
      ++ map (fun sl => CInt (fst sl)) (History.recorded stage cs self)
    /\ series stage "loss" (exec cs self)
       = series stage "loss" self
         ++ map (fun sl => CFloat (snd sl)) (History.recorded stage cs self).
Proof.
  induction cs as [|c cs IH]; intros self nt nv stage L Hs.
  - cbn. now rewrite !app_nil_r.
  - cbn [exec].
    destruct (IH _ _ _ stage (layout_do_call c _ _ _ L) Hs) as [I1 I2].
    destruct (do_call_series c self nt nv stage L Hs) as [D1 D2].
    rewrite I1, I2, D1, D2.
    cbn [History.recorded]. rewrite !app_nil_r, !map_app, !app_assoc.
    split; reflexivity.
Qed.

(** X17.  The step and loss series of a stage hold, in call order and
    unchanged, the [step] and [loss] arguments of the [update] calls
    completed under that stage: nothing is reordered, dropped, duplicated or
    converted, whatever calls and failures came in between. *)
Theorem series_record_arguments (n : Z) (cs : list call) :
  let self := exec cs (UNetMetrics.__init__ n) in
  Forall (fun stage =>
            series stage "step" self
            = map (fun sl => CInt (fst sl))
                  (History.recorded stage cs (UNetMetrics.__init__ n))
            /\ series stage "loss" self
               = map (fun sl => CFloat (snd sl))
                     (History.recorded stage cs (UNetMetrics.__init__ n)))
         stages.
Proof.
  intros self. subst self. apply Forall_forall. intros stage Hs.
  destruct (exec_series cs _ _ _ stage (layout_init n) Hs) as [E1 E2].
  rewrite E1, E2.
  assert (Hst : stage = "train" \/ stage = "val")
    by (destruct Hs as [<-|[<-|[]]]; auto).
  destruct Hst as [-> | ->]; split; reflexivity.
Qed.

Lemma to_dataframe_raises (g : Globals) (self : t) (nt nv : nat) :
  layout self nt nv -> exists e, UNetMetrics._to_dataframe g self = Raise e.
Proof.
  intros L. destruct L. unfold _to_dataframe. cbn [plots for_each].
  unfold dataframe_rows_of at 1. cbn [String.eqb Ascii.eqb Bool.eqb negb].
  unfold lookup_name.
  destruct (Namespace.alt_names g) as [names|]; [|eauto].
  destruct (subscript names "train") as [l1'|e1']; [|eauto].
  destruct (subscript names "step") as [l2'|e2']; cbn; eauto.
Qed.

(** X18.  [write_to_file] never hands a table to [to_csv]: in every state
    the engine can reach, and whatever the module namespace binds, it raises
    the exception of [_to_dataframe]. *)
Theorem write_to_file_never_writes (g : Globals) (filename : string) (n : Z)
    (cs : list call) :
  exists e,
    write_to_file g filename (exec cs (UNetMetrics.__init__ n)) = Raise e.
Proof.
  destruct (to_dataframe_raises g _ _ _ (layout_reachable n cs)) as [e E].
  exists e. unfold write_to_file. now rewrite E.
Qed.

End EngineMore.

(* ------------------------------------------------------------------ *)
(** ** The file as written: names that nothing binds *)

Section AsWritten.
Context {env : TorchEnv}.
Import UNetTrainer.

(** X7.  When [load_checkpoint] returns, the trainable flags are those of
    the freeze policy for the value bound to the module-level name [freeze]:
    the attribute [self.freeze], set by the constructor, plays no role. *)
Theorem load_checkpoint_follows_module_freeze (g : Globals) (self : t) :
  fst (load_checkpoint g self) = Normal tt ->
  exists f,
    Namespace.freeze_name g = Some f
    /\ Forall (fun np =>
                 requires_grad (snd np)
                 = if f then startswith (fst np) "final_conv" else true)
              (named_parameters (model (snd (load_checkpoint g self)))).
Proof. exact (load_checkpoint_applies_policy g self). Qed.

(** X8.  In the namespace the script sets up (only [FLAGS] is bound),
    [load_checkpoint] cannot return on any trainer and [validate_fn] cannot
    return on any trainer and loader: the first stops at the latest at the
    unbound name [checkpoint_path], the second at the division by an empty
    length or at the unbound name [accuracy]. *)
Theorem script_namespace_stops_load_and_validation (flags : Flags)
    (loader : DataLoader Data) (self : t) :
  is_normal (fst (load_checkpoint (Namespace.script_globals flags) self))
  = false
  /\ is_normal (fst (validate_fn (Namespace.script_globals flags) loader self))
     = false.
Proof.
  split.
  - apply load_checkpoint_never_returns_in_script.
  - apply validate_fn_never_returns.
Qed.

End AsWritten.

(* ------------------------------------------------------------------ *)
(** ** These theorems at work on the example environment *)

Section MoreExamples.
#[local] Existing Instance Example.env.

Lemma passes_raise_on_engine_attribute_witness :
  UNetTrainer.metrics Example.fresh_trainer
  = Some (UNetTrainer.EngineObj (UNetMetrics.__init__ 2))
  /\ is_normal (fst (UNetTrainer.validate_one_batch [Example.example_batch]
                       Example.fresh_trainer)) = false
  /\ is_normal (fst (UNetTrainer.validate_fn Example.prepared_globals
                       [Example.example_batch] Example.fresh_trainer)) = false
  /\ is_normal (fst (UNetTrainer.train_fn [Example.example_batch] 0
                       Example.fresh_trainer)) = false.
Proof.
  split; [reflexivity|].
  destruct (passes_raise_on_engine_attribute (env := Example.env)
              Example.prepared_globals
              [Example.example_batch] 0 Example.fresh_trainer
              (UNetMetrics.__init__ 2) eq_refl) as [H1 [H2 H3]].
  split; [exact H1|]. split; [exact H2|].
  apply H3. discriminate.
Defined.

Lemma load_checkpoint_reads_module_path_witness :
  In (UNetTrainer.EvTorchLoad "weights/unet.pth.tar")
     (UNetTrainer.new_events
        (Example.prepared_trainer "elsewhere/other.pth.tar")
        (snd (UNetTrainer.load_checkpoint Example.prepared_globals
                (Example.prepared_trainer "elsewhere/other.pth.tar"))))
  /\ (Namespace.checkpoint_path Example.prepared_globals
      = Some "weights/unet.pth.tar"
      /\ exists path,
           UNetTrainer.checkpoint_path
             (Example.prepared_trainer "elsewhere/other.pth.tar") = Some path
           /\ endswith path ".pth.tar" = true).
Proof.
  split; [left; reflexivity|].
  apply (load_checkpoint_reads_module_path Example.prepared_globals
           (Example.prepared_trainer "elsewhere/other.pth.tar")
           "weights/unet.pth.tar").
  left. reflexivity.
Defined.

Lemma load_checkpoint_follows_module_freeze_witness :
  fst (UNetTrainer.load_checkpoint Example.prepared_globals Example.prepared)
  = Normal tt
  /\ exists f,
       Namespace.freeze_name Example.prepared_globals = Some f
       /\ Forall (fun np =>
                    requires_grad (snd np)
                    = if f then startswith (fst np) "final_conv" else true)
                 (UNetTrainer.named_parameters
                    (UNetTrainer.model
                       (snd (UNetTrainer.load_checkpoint
                               Example.prepared_globals Example.prepared)))).
Proof.
  split; [reflexivity|].
  apply (load_checkpoint_follows_module_freeze Example.prepared_globals
           Example.prepared).
  reflexivity.
Defined.

Lemma run_is_one_validation_pass_witness :
  Namespace.FLAGS Example.prepared_globals = Some Example.flags
  /\ 0 < UNetTrainer.num_epochs Example.prepared
  /\ UNetTrainer.run Example.prepared_globals Example.prepared
     = match UNetTrainer.validate_fn Example.prepared_globals
               [Example.example_batch] Example.prepared with
       | (Normal _, s) => (Normal tt, s)
       | (Raise e, s) => (Raise e, s)
       end.
Proof.
  split; [reflexivity|]. split; [reflexivity|].
  exact (run_is_one_validation_pass Example.prepared_globals Example.flags
           Example.prepared eq_refl eq_refl).
Defined.



Lemma main_outcome_witness :
  Script.main true false Example.flags = (Raise (NameError "Tensor"), None)
  /\ Script.main false false
       (Namespace.mkFlags "data/images" "data/masks" "" true false)
     = (Raise (ValueError
                 "Must specify a checkpoint file (.pth.tar) for freeze"),
        None)
  /\ exists trainer,
       snd (Script.main false false
              (Namespace.mkFlags "data/images" "data/masks"
                                 "weights/unet.pth.tar" true false))
       = Some trainer
       /\ UNetTrainer.checkpoint_dir trainer = ""
       /\ existsb UNetTrainer.is_load (UNetTrainer.events trainer) = false.
Proof.
  split; [|split].
  - apply (proj1 (proj2 (main_outcome true false Example.flags))).
    reflexivity.
  - apply (proj1 (proj2 (proj2
             (main_outcome false false
                (Namespace.mkFlags "data/images" "data/masks" "" true false))))
          ); reflexivity.
  - pose proof (proj2 (proj2 (proj2
                  (main_outcome false false
                     (Namespace.mkFlags "data/images" "data/masks"
                                        "weights/unet.pth.tar" true false)))))
      as H.
    cbv zeta in H.
    destruct (snd (Script.main false false
                     (Namespace.mkFlags "data/images" "data/masks"
                                        "weights/unet.pth.tar" true false)))
      as [trainer|] eqn:E.
    + exists trainer. split; [reflexivity|].
      destruct (H trainer eq_refl) as [D Ev].
      split; [exact D|]. rewrite Ev. reflexivity.
    + vm_compute in E. discriminate E.
Defined.

Lemma run_degenerate_witness :
  (Namespace.FLAGS Namespace.import_globals = None
   /\ UNetTrainer.run Namespace.import_globals Example.prepared
      = (Raise (NameError "FLAGS"), Example.prepared))
  /\ (UNetTrainer.num_epochs
        (snd (UNetTrainer.__init__ Example.prepared_globals
                256 2 1 0 (5 # 10000) "" false 4 false)) <= 0
      /\ is_normal
           (fst (UNetTrainer.run Example.prepared_globals
                   (snd (UNetTrainer.__init__ Example.prepared_globals
                           256 2 1 0 (5 # 10000) "" false 4 false))))
         = false).
Proof.
  split; split.
  - reflexivity.
  - apply (proj1 (run_degenerate Namespace.import_globals Example.prepared)).
    reflexivity.
  - discriminate.
  - apply (proj2 (run_degenerate Example.prepared_globals
                    (snd (UNetTrainer.__init__ Example.prepared_globals
                            256 2 1 0 (5 # 10000) "" false 4 false)))).
    discriminate.
Defined.

Lemma checkpoint_paths_witness :
  join "checkpoints" (UNetTrainer.checkpoint_filename 3)
  = join "checkpoints" (UNetTrainer.checkpoint_filename 3)
  /\ endswith (join "checkpoints" (UNetTrainer.checkpoint_filename 3))
              ".pth.tar" = true
  /\ 3%nat = 3%nat.
Proof.
  split; [reflexivity|].
  destruct (checkpoint_paths "checkpoints" 3) as [H1 H2].
  split; [exact H1|]. apply H2. reflexivity.
Defined.

Lemma save_if_best_effects_witness :
  (UNetTrainer.new_events Example.prepared
     (snd (UNetTrainer.save_if_best Example.prepared_globals 0
             [("loss", 5%Q); ("accuracy", 0%Q)] 9999%Q Example.prepared))
   <> []
   /\ exists loss flags,
        getitem "loss" [("loss", 5%Q); ("accuracy", 0%Q)] = Some loss
        /\ (loss < 9999)%Q
        /\ Namespace.FLAGS Example.prepared_globals = Some flags
        /\ Namespace.debug flags = false)
  /\ (fst (UNetTrainer.save_if_best Example.prepared_globals 0
             [("loss", 5%Q); ("accuracy", 0%Q)] 9999%Q Example.prepared)
      = Normal (Fallthrough, 5%Q)
      /\ (5 <= 9999)%Q).
Proof.
  destruct (save_if_best_effects Example.prepared_globals 0
              [("loss", 5%Q); ("accuracy", 0%Q)] 9999%Q Example.prepared)
    as [_ [H2 H3]].
  split; split.
  - discriminate.
  - apply H2. discriminate.
  - reflexivity.
  - exact (proj1 (proj2 (H3 Fallthrough 5%Q eq_refl))).
Defined.

Lemma one_hot_encoding_entries_witness :
  History.at3 [[[1; 0]; [0; 1]]] 0 1 1 = Some 1
  /\ exists encoded,
       UNetTrainer.one_hot_encoding Example.fresh_trainer [[[1; 0]; [0; 1]]]
       = Normal encoded
       /\ History.at4 encoded 0 1 1 1 = Some (if Z.of_nat 1 =? 1 then 1 else 0).
Proof.
  split; [reflexivity|].
  apply (one_hot_encoding_entries Example.fresh_trainer [[[1; 0]; [0; 1]]]
           0 1 1 1 1).
  - reflexivity.
  - cbn. intros x Hx. change (UNetTrainer.num_classes _) with 2.
    intuition lia.
  - reflexivity.
  - change (UNetTrainer.num_classes Example.fresh_trainer) with 2. cbn. lia.
Defined.

Lemma one_hot_encoding_rejects_witness :
  In 2 (entries3 [[[1; 2]]])
  /\ exists msg,
       UNetTrainer.one_hot_encoding Example.fresh_trainer [[[1; 2]]]
       = Raise (RuntimeError msg).
Proof.
  split; [cbn; auto|].
  apply (one_hot_encoding_rejects Example.fresh_trainer [[[1; 2]]] 2).
  - reflexivity.
  - cbn. auto.
  - right. change (UNetTrainer.num_classes Example.fresh_trainer) with 2. lia.
Defined.

End MoreExamples.
